(** * Channel metadata pipeline: [app.py] and [m3u8_vavoo.py]

    A shallow embedding of the catalog builder, the cache layer, the
    classifier, the logo resolver and the playlist exporter, followed by the
    properties of the specification that were checked against them.

    Python values are modelled as follows.
    - A [str] is the list of its Unicode code points.
    - A [dict] is an association list in insertion order (Python dicts keep
      it, and several loops of the program depend on it).
    - Files are typed documents held in a record; a write may fail.
    - [print] and [logging] calls have no effect on any value studied here
      and are left out. *)

From Stdlib Require Import List NArith String Ascii Bool Arith Lia DecimalString.
Import ListNotations.

Set Implicit Arguments.
Set Default Proof Using "Type".

(* ------------------------------------------------------------------ *)
(** ** Python strings *)

Definition char := N.
Definition str := list char.

(** A literal of the source, as code points. *)
Definition py (s : string) : str := map N_of_ascii (list_ascii_of_string s).
Arguments py s%_string.

Fixpoint str_eqb (a b : str) : bool :=
  match a, b with
  | [], [] => true
  | x :: a', y :: b' => N.eqb x y && str_eqb a' b'
  | _, _ => false
  end.

(** [s.startswith(p)] *)
Fixpoint startswith (p s : str) : bool :=
  match p, s with
  | [], _ => true
  | _ :: _, [] => false
  | x :: p', y :: s' => N.eqb x y && startswith p' s'
  end.

(** [sub in s] on strings: [sub] occurs as a contiguous run of [s]. *)
Fixpoint str_in (sub s : str) : bool :=
  startswith sub s ||
  match s with
  | [] => false
  | _ :: s' => str_in sub s'
  end.

(** [x in l] on a list of strings. *)
Definition list_in (x : str) (l : list str) : bool := existsb (str_eqb x) l.

(** The characters for which [str.isspace] holds; the class [\s] of [re] on
    [str] patterns and the characters removed by [str.strip()] and skipped by
    [str.split()]. *)
Definition is_space (c : char) : bool :=
  ((9 <=? c) && (c <=? 13) || (28 <=? c) && (c <=? 32) ||
   (c =? 133) || (c =? 160) || (c =? 5760) ||
   (8192 <=? c) && (c <=? 8202) || (c =? 8232) || (c =? 8233) ||
   (c =? 8239) || (c =? 8287) || (c =? 12288))%N.

(** The class [[A-Za-z]] (no flag). *)
Definition is_letter (c : char) : bool :=
  ((65 <=? c) && (c <=? 90) || (97 <=? c) && (c <=? 122))%N.

(** The class [[a-zA-Z0-9]]. *)
Definition is_alnum (c : char) : bool :=
  (is_letter c || (48 <=? c) && (c <=? 57))%N.

(** The class [[cs]] under [re.IGNORECASE] on a [str] pattern: both cases of
    the two letters, and U+017F (LATIN SMALL LETTER LONG S), which [re]
    treats as a case variant of [s]. *)
Definition is_cs (c : char) : bool :=
  ((c =? 99) || (c =? 67) || (c =? 115) || (c =? 83) || (c =? 383))%N.

Fixpoint dropwhile (A : Type) (p : A -> bool) (l : list A) : list A :=
  match l with
  | [] => []
  | x :: l' => if p x then dropwhile p l' else l
  end.

(** [s.strip()] *)
Definition strip (s : str) : str :=
  rev (dropwhile is_space (rev (dropwhile is_space s))).

(** [s.split()]: the maximal runs of non-whitespace characters. [cur] holds
    the current run, reversed. *)
Fixpoint split_ws_from (cur : str) (s : str) : list str :=
  match s with
  | [] => match cur with [] => [] | _ => [rev cur] end
  | c :: s' =>
      if is_space c
      then match cur with
           | [] => split_ws_from [] s'
           | _ => rev cur :: split_ws_from [] s'
           end
      else split_ws_from (c :: cur) s'
  end.

Definition split_ws (s : str) : list str := split_ws_from [] s.

(** [s.split(sep)] for a one-character separator. *)
Fixpoint split_on (sep : char) (s : str) : list str :=
  match s with
  | [] => [[]]
  | c :: s' =>
      if N.eqb c sep then [] :: split_on sep s'
      else match split_on sep s' with
           | w :: ws => (c :: w) :: ws
           | [] => [[c]]
           end
  end.

(** [sep.join(parts)] *)
Fixpoint join (sep : str) (parts : list str) : str :=
  match parts with
  | [] => []
  | [p] => p
  | p :: ps => p ++ sep ++ join sep ps
  end.

(** [s.replace(" ", "+")] *)
Definition replace_space_plus (s : str) : str :=
  map (fun c => if N.eqb c 32 then 43%N else c) s.

(** [str(n)] for a non-negative integer. *)
Definition str_of_N (n : N) : str := py (NilEmpty.string_of_uint (N.to_uint n)).

(** [str.lower] on the ASCII range. The embedding below takes [str.lower] as
    a parameter; this function instantiates it on concrete ASCII inputs,
    where the two agree. *)
Definition ascii_lower (s : str) : str :=
  map (fun c => if ((65 <=? c) && (c <=? 90))%N then (c + 32)%N else c) s.

(** [str.capitalize] on the ASCII range (first character upper-cased, the
    rest lower-cased). *)
Definition ascii_capitalize (s : str) : str :=
  match s with
  | [] => []
  | c :: s' =>
      (if ((97 <=? c) && (c <=? 122))%N then (c - 32)%N else c) :: ascii_lower s'
  end.

Definition hex_digit (n : N) : char :=
  (if n <? 10 then 48 + n else 55 + n)%N.

(** [urllib.parse.quote_plus(s, safe='')] on the ASCII range: unreserved
    characters are kept, a space becomes [+], any other character becomes
    [%XX]. *)
Definition ascii_quote_plus (s : str) : str :=
  flat_map (fun c =>
    if (is_alnum c || (c =? 95) || (c =? 46) || (c =? 45) || (c =? 126))%N
    then [c]
    else if (c =? 32)%N then [43%N]
    else [37%N; hex_digit (c / 16); hex_digit (c mod 16)]) s.

(** A Python [dict] with string keys, in insertion order. *)
Definition dict (V : Type) := list (str * V).

(** [d.get(k)] / [k in d] *)
Fixpoint dict_get (V : Type) (d : dict V) (k : str) : option V :=
  match d with
  | [] => None
  | (k', v) :: d' => if str_eqb k k' then Some v else dict_get d' k
  end.

Definition dict_mem (V : Type) (d : dict V) (k : str) : bool :=
  match dict_get d k with Some _ => true | None => false end.

(** [d[k] = v]: replaces the value of an existing key in place, appends a
    new key at the end. *)
Fixpoint dict_set (V : Type) (d : dict V) (k : str) (v : V) : dict V :=
  match d with
  | [] => [(k, v)]
  | (k', v') :: d' =>
      if str_eqb k k' then (k', v) :: d' else (k', v') :: dict_set d' k v
  end.

(* ------------------------------------------------------------------ *)
(** ** Regular-expression substitutions of the source *)

(** [name[-3:]] and [name[:-3]] *)
Definition last3 (name : str) : str := skipn (List.length name - 3) name.
Definition drop_last3 (name : str) : str := firstn (List.length name - 3) name.

(** [re.match(r'\s\.[A-Za-z]', s)] as a truth value: the pattern is tried at
    the start of [s] only. *)
Definition match_space_dot_letter (s : str) : bool :=
  match s with
  | w :: d :: l :: _ => is_space w && N.eqb d 46 && is_letter l
  | _ => false
  end.

(** The end of the subject as [$] sees it without [re.MULTILINE]: [$]
    matches at the very end and also just before a final newline. The
    subject is returned reversed, split into that final newline (if any) and
    the rest. A subject ending in a newline cannot match [[cs]$] at its very
    end, so the position before the newline is the only candidate then. *)
Definition dollar_split (s : str) : str * str :=
  match rev s with
  | 10%N :: r => ([10%N], r)
  | r => ([], r)
  end.

(** [re.sub(r"\.[cs]$", "", s, flags=re.IGNORECASE)] *)
Definition sub_dot_cs (s : str) : str :=
  let (nl, r) := dollar_split s in
  match r with
  | c :: 46%N :: r' => if is_cs c then rev r' ++ nl else s
  | _ => s
  end.

(** [re.sub(r"\s+\.[cs]$", "", s, flags=re.IGNORECASE)]: the leftmost match
    starts where the whitespace run in front of the dot starts. *)
Definition sub_ws_dot_cs (s : str) : str :=
  let (nl, r) := dollar_split s in
  match r with
  | c :: 46%N :: w :: r' =>
      if is_cs c && is_space w then rev (dropwhile is_space r') ++ nl else s
  | _ => s
  end.

(* ------------------------------------------------------------------ *)
(** ** Data of the two programs *)

(** [config.json] *)
Record config := { mediaflow_url : str; mediaflow_psw : str }.

(** An entry of [sample_channels.json]; the [genre] key is optional. *)
Record raw_channel :=
  { raw_name : str; raw_url : str; raw_genre : option str }.

(** An entry of [channels_data.json], the [channel_obj] of the builder. *)
Record channel :=
  { ch_id : str; ch_name : str; ch_url : str; ch_genre : str; ch_icon : str }.

Record stream_info := { si_url : str; si_title : str }.

(** The object built by [to_meta]. *)
Record meta :=
  { m_id : str; m_name : str; m_type : str; m_genres : list str;
    m_poster : str; m_posterShape : str; m_background : str; m_logo : str;
    m_streamInfo : stream_info }.

(** A file holds a well-typed JSON document, or is missing, or holds
    something [json.load] rejects (for instance a torn write). *)
Inductive file (A : Type) : Type :=
| Missing : file A
| Unreadable : file A
| Content : A -> file A.
Arguments Missing {A}.
Arguments Unreadable {A}.

Inductive filename :=
| CONFIG_FILE | HEADERS_FILE | GENRE_FILE | ICONS_FILE | CHANNELS_FILE
| SAMPLE_CHANNELS_FILE.

Record disk :=
  { f_config : file config;
    f_headers : file (dict str);
    f_genres : file (dict str);
    f_icons : file (dict str);
    f_channels : file (list channel);
    f_sample : file (list raw_channel) }.

(** The process state of [app.py]: the files and the module-level
    [channel_cache], whose only key is ['all_channels']. *)
Record world := { fs : disk; channel_cache : option (list meta) }.

(** What happens to one [save_json_file] call: it succeeds, or [open]
    raises and the file is untouched, or [json.dump] raises after [open]
    truncated the file. *)
Inductive write_outcome := WriteOk | FailsAtOpen | FailsMidway.

(** What a run of the builder takes from outside: the fate of each write,
    and the values of [time.time()] and [random.randint(1000, 9999)] at the
    [i]-th call of [generate_id]. *)
Record env :=
  { write : filename -> write_outcome; clock : nat -> N; dice : nat -> N }.

(** An item of the upstream catalog; both keys may be absent. *)
Record item := { item_name : option str; item_url : option str }.

(** One call of the upstream endpoint: [requests.post], [raise_for_status]
    or [response.json] raises, or a JSON object comes back, with or without
    an ["items"] key. *)
Inductive response :=
| RequestFails : response
| Answer : option (list item) -> response.

Definition dq : str := [34%N].
Definition newline : str := [10%N].

(** An entry of the ["catalogs"] list of the manifest. *)
Record catalog_desc :=
  { cat_type : str; cat_id : str; cat_name : str; cat_extra : list (str * bool) }.

(** The manifest object returned by [create_manifest]. *)
Record manifest_doc :=
  { man_id : str; man_name : str; man_version : str; man_description : str;
    man_resources : list str; man_types : list str;
    man_catalogs : list catalog_desc; man_idPrefixes : list str;
    man_behaviorHints : list (str * bool);
    man_logo : str; man_icon : str; man_background : str }.

(** What a route handler gives back: a JSON body, or an [HTTPException]
    with its status code and detail. *)
Inductive http (A : Type) : Type :=
| Body : A -> http A
| HTTPException : nat -> str -> http A.
Arguments HTTPException {A}.

(* ------------------------------------------------------------------ *)
(** ** Concrete inputs used by the examples *)

(** A run in which every write succeeds. *)
Definition all_writes_ok : env :=
  {| write := fun _ => WriteOk;
     clock := fun _ => 1700000000%N;
     dice := fun i => (1000 + N.of_nat i)%N |}.

(** A run in which [open] fails on [channels_data.json] only. *)
Definition snapshot_write_fails : env :=
  {| write := fun f => match f with CHANNELS_FILE => FailsAtOpen | _ => WriteOk end;
     clock := fun _ => 1700000000%N;
     dice := fun i => (1000 + N.of_nat i)%N |}.

(** A configured installation with the given genre and sample files, no
    snapshot yet and an empty cache. *)
Definition configured (genres : file (dict str))
    (sample : file (list raw_channel)) : world :=
  {| fs := {| f_config := Content {| mediaflow_url := py "mf.example";
                                     mediaflow_psw := py "secret" |};
              f_headers := Missing;
              f_genres := genres;
              f_icons := Missing;
              f_channels := Missing;
              f_sample := sample |};
     channel_cache := None |}.

(** A run in which the write of [config.json] is torn. *)
Definition config_write_torn : env :=
  {| write := fun f => match f with CONFIG_FILE => FailsMidway | _ => WriteOk end;
     clock := fun _ => 1700000000%N;
     dice := fun i => (1000 + N.of_nat i)%N |}.

(** A fresh installation: no file at all, an empty cache. *)
Definition unconfigured : world :=
  {| fs := {| f_config := Missing; f_headers := Missing; f_genres := Missing;
              f_icons := Missing; f_channels := Missing; f_sample := Missing |};
     channel_cache := None |}.

Definition sky_sport (hint : option str) : raw_channel :=
  {| raw_name := py "Sky Sport .I"; raw_url := py "https://x/sky.m3u8";
     raw_genre := hint |}.

Definition sport_keywords : dict (list str) := [ (py "SPORT", [py "sky sport"]) ].

Definition two_logos : dict str :=
  [ (py "sky", py "https://logos.example/sky.png");
    (py "sky sport", py "https://logos.example/sky-sport.png") ].

Definition item_of (name url : str) : item :=
  {| item_name := Some name; item_url := Some url |}.

Section Pipeline.

(** Library functions taken as parameters: [str.lower], [str.capitalize]
    and [urllib.parse.quote_plus] with [safe=''] (as [urlencode] calls it). *)
Variable lower : str -> str.
Variable capitalize : str -> str.
Variable quote_plus : str -> str.

(* ------------------------------------------------------------------ *)
(** ** [app.py] *)

Definition AVAILABLE_GENRES : list str :=
  map py
    [ "animation"; "business"; "classic"; "comedy"; "cooking"; "culture";
      "documentary"; "education"; "entertainment"; "family"; "kids";
      "legislative"; "lifestyle"; "movies"; "music"; "general"; "religious";
      "news"; "outdoor"; "relax"; "series"; "science"; "shop"; "sports";
      "travel"; "weather"; "xxx"; "auto" ]%string.

Definition load_json_file (A : Type) (f : file A) (default : A) : A :=
  match f with
  | Content a => a
  | _ => default
  end.

Definition save_json_file (A : Type) (o : write_outcome) (old : file A)
    (data : A) : bool * file A :=
  match o with
  | WriteOk => (true, Content data)
  | FailsAtOpen => (false, old)
  | FailsMidway => (false, Unreadable)
  end.

Definition clean_channel_name (name : str) : str :=
  if 3 <? List.length name then
    if match_space_dot_letter (last3 name) then drop_last3 name else name
  else name.

(** [now] is [int(time.time())], [rnd] the random draw. *)
Definition generate_id (name : str) (now rnd : N) : str :=
  let clean_name := filter is_alnum (lower (clean_channel_name name)) in
  clean_name ++ py "-" ++ str_of_N now ++ py "-" ++ str_of_N rnd.

Definition keywords : dict str :=
  [ (py "sport", py "sports"); (py "calcio", py "sports");
    (py "football", py "sports"); (py "news", py "news");
    (py "notizie", py "news"); (py "tg", py "news");
    (py "film", py "movies"); (py "cinema", py "movies");
    (py "movie", py "movies"); (py "bambini", py "kids");
    (py "kids", py "kids"); (py "cartoni", py "animation");
    (py "documentari", py "documentary"); (py "doc", py "documentary");
    (py "musica", py "music"); (py "music", py "music");
    (py "comedy", py "comedy"); (py "commedia", py "comedy");
    (py "lifestyle", py "lifestyle"); (py "cucina", py "cooking");
    (py "food", py "cooking"); (py "meteo", py "weather");
    (py "weather", py "weather"); (py "viaggi", py "travel");
    (py "travel", py "travel"); (py "serie", py "series");
    (py "auto", py "auto"); (py "motor", py "auto");
    (py "xxx", py "xxx"); (py "adult", py "xxx") ].

(** The [for keyword, genre in keywords.items()] loop. *)
Fixpoint keyword_scan (kws : dict str) (clean_name : str) : option str :=
  match kws with
  | [] => None
  | (keyword, genre) :: rest =>
      if str_in keyword clean_name then Some genre
      else keyword_scan rest clean_name
  end.

Definition assign_genre (channel_name : str) (genre_mapping : dict str) : str :=
  let clean_name := lower (clean_channel_name channel_name) in
  match dict_get genre_mapping clean_name with
  | Some genre => genre
  | None =>
      match keyword_scan keywords clean_name with
      | Some genre => genre
      | None => py "general"
      end
  end.

Definition load_config (d : disk) : config :=
  load_json_file (f_config d) {| mediaflow_url := []; mediaflow_psw := [] |}.

Definition addon_logo : str := py "https://dl.strem.io/addon-logo.png".

(** [urlencode(params, quote_via=quote_plus)] *)
Definition urlencode (params : dict str) : str :=
  join (py "&")
    (map (fun kv => quote_plus (fst kv) ++ py "=" ++ quote_plus (snd kv)) params).

Definition to_meta (d : disk) (c : channel) (url psw : str) : meta :=
  let icons := load_json_file (f_icons d) [] in
  let channel_name := clean_channel_name (ch_name c) in
  let logo :=
    match dict_get icons channel_name with
    | Some u => u
    | None =>
        match dict_get icons (ch_name c) with
        | Some u => u
        | None => addon_logo
        end
    end in
  let headers :=
    [ (py "user-agent",
       py "Mozilla/5.0 (Windows NT 10.0; Win64; x64) AppleWebKit/537.36 (KHTML, like Gecko) Chrome/133.0.0.0 Safari/537.36");
      (py "referer", py "https://vavoo.to/");
      (py "origin", py "https://vavoo.to") ] in
  let params :=
    [ (py "api_password", psw); (py "d", ch_url c) ]
    ++ map (fun kv => (py "h_" ++ fst kv, snd kv)) headers in
  let stream_url :=
    py "https://" ++ url ++ py "/proxy/hls/manifest.m3u8?" ++ urlencode params in
  {| m_id := py "mediaflow-" ++ ch_id c;
     m_name := channel_name;
     m_type := py "tv";
     m_genres := [ch_genre c];
     m_poster := logo;
     m_posterShape := py "square";
     m_background := logo;
     m_logo := logo;
     m_streamInfo := {| si_url := stream_url; si_title := channel_name |} |}.

(** Python truth value of a string or a list: non-empty. *)
Definition truthy (A : Type) (l : list A) : bool :=
  match l with [] => false | _ => true end.

Definition get_all_channels (w : world) : list meta * world :=
  match channel_cache w with
  | Some cached => (cached, w)
  | None =>
      let cfg := load_config (fs w) in
      if negb (truthy (mediaflow_url cfg)) || negb (truthy (mediaflow_psw cfg))
      then ([], w)
      else
        let channels_data := load_json_file (f_channels (fs w)) [] in
        if negb (truthy channels_data) then ([], w)
        else
          let all_channels :=
            map (fun c => to_meta (fs w) c (mediaflow_url cfg) (mediaflow_psw cfg))
                channels_data in
          (all_channels, {| fs := fs w; channel_cache := Some all_channels |})
  end.

Definition default_headers : dict str :=
  [ (py "User-Agent",
     py "Mozilla/5.0 (Windows NT 10.0; Win64; x64) AppleWebKit/537.36 (KHTML, like Gecko) Chrome/133.0.0.0 Safari/537.36");
    (py "Referer", py "https://vavoo.to/");
    (py "Origin", py "https://vavoo.to") ].

Definition builtin_sample_channels : list raw_channel :=
  [ {| raw_name := py "Rai 1 .I"; raw_url := py "https://example.com/rai1.m3u8";
       raw_genre := Some (py "general") |};
    {| raw_name := py "Canale 5 .I"; raw_url := py "https://example.com/canale5.m3u8";
       raw_genre := Some (py "general") |};
    {| raw_name := py "Sky Sport .I"; raw_url := py "https://example.com/skysport.m3u8";
       raw_genre := Some (py "sports") |};
    {| raw_name := py "Discovery Channel .I";
       raw_url := py "https://example.com/discovery.m3u8";
       raw_genre := Some (py "documentary") |} ].

(** [channel.get('genre') or assign_genre(channel_name, genre_mapping)],
    then the clamp [if genre not in AVAILABLE_GENRES: genre = "general"]. *)
Definition entry_genre (c : raw_channel) (genre_mapping : dict str) : str :=
  let genre :=
    match raw_genre c with
    | Some hint =>
        if truthy hint then hint else assign_genre (raw_name c) genre_mapping
    | None => assign_genre (raw_name c) genre_mapping
    end in
  if list_in genre AVAILABLE_GENRES then genre else py "general".

(** The [for channel in sample_channels] loop; [i] counts the entries
    already processed. *)
Fixpoint channel_loop (e : env) (icons : dict str) (i : nat)
    (sample_channels : list raw_channel) (channels_data : list channel)
    (genre_mapping : dict str) : list channel * dict str :=
  match sample_channels with
  | [] => (channels_data, genre_mapping)
  | c :: rest =>
      let channel_name := raw_name c in
      let clean_name := clean_channel_name channel_name in
      let icon_url :=
        match dict_get icons clean_name with
        | Some u => u
        | None => addon_logo
        end in
      let genre := entry_genre c genre_mapping in
      let channel_obj :=
        {| ch_id := generate_id channel_name (clock e i) (dice e i);
           ch_name := channel_name;
           ch_url := raw_url c;
           ch_genre := genre;
           ch_icon := icon_url |} in
      let genre_mapping' :=
        if dict_mem genre_mapping clean_name then genre_mapping
        else dict_set genre_mapping clean_name genre in
      channel_loop e icons (S i) rest (channels_data ++ [channel_obj])
        genre_mapping'
  end.

(** The files as they are when the loop starts: [headers.json] and
    [sample_channels.json] are created when absent (the results of these two
    writes are not looked at). *)
Definition prepare_files (e : env) (d : disk) : disk :=
  let headers := load_json_file (f_headers d) [] in
  let f_headers' :=
    if negb (truthy headers)
    then snd (save_json_file (write e HEADERS_FILE) (f_headers d) default_headers)
    else f_headers d in
  let f_sample' :=
    match f_sample d with
    | Missing =>
        snd (save_json_file (write e SAMPLE_CHANNELS_FILE) (f_sample d)
               builtin_sample_channels)
    | _ => f_sample d
    end in
  {| f_config := f_config d; f_headers := f_headers'; f_genres := f_genres d;
     f_icons := f_icons d; f_channels := f_channels d; f_sample := f_sample' |}.

Definition generate_channel_list (e : env) (w : world) : bool * world :=
  let cfg := load_config (fs w) in
  let genre_mapping := load_json_file (f_genres (fs w)) [] in
  let icons := load_json_file (f_icons (fs w)) [] in
  if negb (truthy (mediaflow_url cfg)) || negb (truthy (mediaflow_psw cfg))
  then (false, w)
  else
    let d1 := prepare_files e (fs w) in
    let sample_channels := load_json_file (f_sample d1) [] in
    let (channels_data, genre_mapping') :=
      channel_loop e icons 0 sample_channels [] genre_mapping in
    let f_genres' :=
      snd (save_json_file (write e GENRE_FILE) (f_genres d1) genre_mapping') in
    let (saved, f_channels') :=
      save_json_file (write e CHANNELS_FILE) (f_channels d1) channels_data in
    let d2 :=
      {| f_config := f_config d1; f_headers := f_headers d1;
         f_genres := f_genres'; f_icons := f_icons d1;
         f_channels := f_channels'; f_sample := f_sample d1 |} in
    if saved
    then (true, {| fs := d2; channel_cache := None |})
    else (false, {| fs := d2; channel_cache := channel_cache w |}).

(** The handler of [/catalog/{type}/{id}.json]; the result is the value of
    the ["metas"] key. [search] is [None] when the query has no such
    parameter. *)
Definition catalog (w : world) (type id : str) (search : option str)
    : list meta * world :=
  if negb (str_eqb type (py "tv")) || negb (startswith (py "mediaflow-") id)
  then ([], w)
  else
    let category := nth 1 (split_on 45%N id) [] in
    let (all_channels, w') := get_all_channels w in
    let filtered_channels :=
      filter (fun c => list_in category (m_genres c)) all_channels in
    let filtered_channels :=
      match search with
      | Some s =>
          if truthy s
          then filter (fun c => str_in (lower s) (lower (m_name c))) all_channels
          else filtered_channels
      | None => filtered_channels
      end in
    (filtered_channels, w').

Definition create_manifest (mediaflow_url mediaflow_psw : str) : manifest_doc :=
  {| man_id := py "org.mediaflow.iptv";
     man_name := py "MediaFlow IPTV";
     man_version := py "1.0.0";
     man_description := py "Watch IPTV channels from MediaFlow service";
     man_resources := [py "catalog"; py "meta"; py "stream"];
     man_types := [py "tv"];
     man_catalogs :=
       map (fun genre =>
              {| cat_type := py "tv";
                 cat_id := py "mediaflow-" ++ genre;
                 cat_name := py "MediaFlow - " ++ capitalize genre;
                 cat_extra := [(py "search", false)] |})
           AVAILABLE_GENRES;
     man_idPrefixes := [py "mediaflow-"];
     man_behaviorHints :=
       [(py "configurable", false); (py "configurationRequired", false)];
     man_logo := py "https://dl.strem.io/addon-logo.png";
     man_icon := py "https://dl.strem.io/addon-logo.png";
     man_background := py "https://dl.strem.io/addon-background.jpg" |}.

(** [save_config], given the fate [o] of its write. *)
Definition save_config (o : write_outcome) (d : disk)
    (mediaflow_url mediaflow_psw : str) : bool * disk :=
  let cfg := {| mediaflow_url := mediaflow_url; mediaflow_psw := mediaflow_psw |} in
  let (ok, f_config') := save_json_file o (f_config d) cfg in
  (ok, {| f_config := f_config'; f_headers := f_headers d;
          f_genres := f_genres d; f_icons := f_icons d;
          f_channels := f_channels d; f_sample := f_sample d |}).

(** The handler of [POST /save-config]; the body [true] stands for
    [{"success": True}]. The result of the build it triggers is not looked
    at. *)
Definition save_configuration (e : env) (mediaflow_url mediaflow_psw : str)
    (w : world) : http bool * world :=
  if negb (truthy mediaflow_url) || negb (truthy mediaflow_psw)
  then (HTTPException 400 (py "Mancano dei parametri"), w)
  else
    let (ok, d') :=
      save_config (write e CONFIG_FILE) (fs w) mediaflow_url mediaflow_psw in
    let w1 := {| fs := d'; channel_cache := channel_cache w |} in
    if ok then (Body true, snd (generate_channel_list e w1))
    else (HTTPException 500 (py "Errore nel salvataggio della configurazione"), w1).

(** The handler of [/mfp/{url}/psw/{psw}/manifest.json]: neither the result
    of the write nor that of the build is looked at. *)
Definition manifest_with_params (e : env) (url psw : str) (w : world)
    : manifest_doc * world :=
  let (_, d') := save_config (write e CONFIG_FILE) (fs w) url psw in
  let w1 := {| fs := d'; channel_cache := channel_cache w |} in
  (create_manifest url psw, snd (generate_channel_list e w1)).

(** The handler of [/manifest.json], named [manifest] in the source. *)
Definition manifest_route (w : world) : manifest_doc :=
  let cfg := load_config (fs w) in
  create_manifest (mediaflow_url cfg) (mediaflow_psw cfg).

(** [next((c for c in all_channels if c["id"] == id), None)] *)
Definition find_channel (all_channels : list meta) (id : str) : option meta :=
  find (fun c => str_eqb (m_id c) id) all_channels.

(** The handler of [/meta/{type}/{id}.json], named [meta] in the source;
    [None] stands for the empty object [{}] of the ["meta"] key. *)
Definition meta_route (w : world) (type id : str) : option meta * world :=
  if negb (str_eqb type (py "tv")) || negb (startswith (py "mediaflow-") id)
  then (None, w)
  else
    let (all_channels, w') := get_all_channels w in
    (find_channel all_channels id, w').

(** The handler of [/stream/{type}/{id}.json], named [stream] in the source;
    the result is the value of the ["streams"] key. A meta object is never
    empty and always has a ["streamInfo"] key, so the test of the source
    succeeds exactly when a channel is found. *)
Definition stream_route (w : world) (type id : str) : list stream_info * world :=
  if negb (str_eqb type (py "tv")) || negb (startswith (py "mediaflow-") id)
  then ([], w)
  else
    let (all_channels, w') := get_all_channels w in
    match find_channel all_channels id with
    | Some channel => ([m_streamInfo channel], w')
    | None => ([], w')
    end.

(* ------------------------------------------------------------------ *)
(** ** [m3u8_vavoo.py] *)

(** The [for category, keywords in category_keywords.items()] loop. *)
Fixpoint category_scan (lower_name : str) (category_keywords : dict (list str))
    : option str :=
  match category_keywords with
  | [] => None
  | (category, kws) :: rest =>
      if existsb (fun keyword => str_in (lower keyword) lower_name) kws
      then Some category
      else category_scan lower_name rest
  end.

Definition get_category (channel_name : str)
    (category_keywords : dict (list str)) : str :=
  match category_scan (lower channel_name) category_keywords with
  | Some category => category
  | None => py "ALTRI"
  end.

Definition normalize_channel_name (channel_name : str) : str :=
  lower (strip (sub_ws_dot_cs channel_name)).

(** One turn of the loop of [get_logo_url]: the exact test, then the
    containment test in both directions. *)
Definition logo_key_hit (normalized_name logo_channel : str) : bool :=
  let normalized_logo_channel := normalize_channel_name logo_channel in
  if str_eqb normalized_name normalized_logo_channel then true
  else str_in normalized_name normalized_logo_channel
       || str_in normalized_logo_channel normalized_name.

Fixpoint logo_scan (normalized_name : str) (channel_logos : dict str)
    : option str :=
  match channel_logos with
  | [] => None
  | (logo_channel, logo_url) :: rest =>
      if logo_key_hit normalized_name logo_channel then Some logo_url
      else logo_scan normalized_name rest
  end.

Definition placeholder_url (channel_name : str) : str :=
  let clean_name := strip (sub_ws_dot_cs channel_name) in
  let formatted_name := replace_space_plus clean_name in
  py "https://placehold.co/400x400?text=" ++ formatted_name ++ py "&.png".

(** The statements after the first [return] of the placeholder are
    unreachable and are not modelled. *)
Definition get_logo_url (channel_name : str) (channel_logos : dict str) : str :=
  match logo_scan (normalize_channel_name channel_name) channel_logos with
  | Some logo_url => logo_url
  | None => placeholder_url channel_name
  end.

Definition sanitize_tvg_id (channel_name : str) : str :=
  join (py " ") (map capitalize (split_ws (strip (sub_dot_cs channel_name)))).

(** The [while True] loop of [get_channel_list]. [upstream] lists what the
    successive calls of the endpoint give; [posted] collects the cursor sent
    with each call. The result is [None] when the listed responses run out
    before the loop has left: the program is then still waiting. *)
Fixpoint fetch_loop (upstream : list response) (cursor : nat)
    (all_items : list item) (posted : list nat)
    : option (list nat * list item) :=
  match upstream with
  | [] => None
  | RequestFails :: _ => Some (posted ++ [cursor], all_items)
  | Answer body :: rest =>
      let items := match body with Some l => l | None => [] end in
      if negb (truthy items) then Some (posted ++ [cursor], all_items)
      else fetch_loop rest (cursor + List.length items) (all_items ++ items)
             (posted ++ [cursor])
  end.

(** The cursors posted, and the value of the ["items"] key of the result. *)
Definition get_channel_list (upstream : list response)
    : option (list nat * list item) :=
  fetch_loop upstream 0 [] [].

Definition m3u_header : str :=
  py "#EXTM3U url-tvg=" ++ dq ++ py "http://epg-guide.com/it.gz" ++ dq ++ newline.

(** [any(word.lower() in name.lower() for word in words)] *)
Definition any_word_in (words : list str) (name : str) : bool :=
  existsb (fun word => str_in (lower word) (lower name)) words.

(** What one turn of the loop of [generate_m3u] writes to the file. *)
Definition m3u_entry (it : item) (channel_filters channel_remove : list str)
    (category_keywords : dict (list str)) (channel_logos : dict str) : str :=
  let name := match item_name it with Some n => n | None => py "Unknown" end in
  if any_word_in channel_remove name then []
  else if truthy channel_filters && negb (any_word_in channel_filters name) then []
  else
    let tvg_id := sanitize_tvg_id name in
    match item_url it with
    | None => []
    | Some original_link =>
        if negb (truthy original_link) then []
        else
          let category := get_category name category_keywords in
          let logo_url := get_logo_url name channel_logos in
          (py "#EXTINF:-1 tvg-id=" ++ dq ++ tvg_id ++ dq
             ++ py " tvg-name=" ++ dq ++ tvg_id ++ dq
             ++ py " tvg-logo=" ++ dq ++ logo_url ++ dq
             ++ py " group-title=" ++ dq ++ category ++ dq
             ++ py "," ++ tvg_id ++ newline)
          ++ (py "#EXTVLCOPT:http-user-agent=okhttp/4.11.0" ++ newline)
          ++ (py "#EXTVLCOPT:http-origin=https://vavoo.to/" ++ newline)
          ++ (py "#EXTVLCOPT:http-referrer=https://vavoo.to/" ++ newline)
          ++ (py "#EXTVLCOPT:mediahubmx-signature=[$KEY$]" ++ newline)
          ++ (original_link ++ newline)
    end.

(** The [for idx, item in enumerate(items, 1)] loop; [written] is the text
    already written to the file. *)
Fixpoint m3u_loop (items : list item) (channel_filters channel_remove : list str)
    (category_keywords : dict (list str)) (channel_logos : dict str)
    (written : str) : str :=
  match items with
  | [] => written
  | it :: rest =>
      m3u_loop rest channel_filters channel_remove category_keywords
        channel_logos
        (written ++ m3u_entry it channel_filters channel_remove
                      category_keywords channel_logos)
  end.

(** The text of the playlist file, or [None] when the function returns
    before opening it. [items] is [channels_json.get("items", [])]. *)
Definition generate_m3u (items : list item) (signature : str)
    (channel_filters channel_remove : list str)
    (category_keywords : dict (list str)) (channel_logos : dict str)
    : option str :=
  if negb (truthy items) then None
  else Some (m3u_loop items channel_filters channel_remove category_keywords
               channel_logos m3u_header).

Unset Implicit Arguments.

(* ------------------------------------------------------------------ *)
(** ** Specification-side notions *)

(** The trailing marker of a channel name: a whitespace character, a dot
    and an ASCII letter, after a non-empty base. *)
Definition has_marker (name base : str) : Prop :=
  exists w l, name = base ++ [w; 46%N; l] /\ base <> []
              /\ is_space w = true /\ is_letter l = true.

(** Every value of a genre mapping belongs to the enumerated set. *)
Definition genres_valid (genre_mapping : dict str) : Prop :=
  forall k v, In (k, v) genre_mapping -> In v AVAILABLE_GENRES.

(** A response that ends the pagination: a failed call, or an answer with
    no item. *)
Definition ends_pagination (r : response) : Prop :=
  r = RequestFails \/ r = Answer None \/ r = Answer (Some []).

(** The cursors of a run that receives [pages] in turn, starting at
    [from]: each is the previous one plus the size of the page received. *)
Fixpoint cursors_from (from : nat) (pages : list (list item)) : list nat :=
  match pages with
  | [] => [from]
  | p :: ps => from :: cursors_from (from + List.length p) ps
  end.

(** A key of the logo map matches a normalized query when its own
    normalized form is equal to the query, contains it, or is contained
    in it. *)
Definition logo_key_matches (normalized_name logo_channel : str) : Prop :=
  normalized_name = normalize_channel_name logo_channel
  \/ str_in normalized_name (normalize_channel_name logo_channel) = true
  \/ str_in (normalize_channel_name logo_channel) normalized_name = true.

(** An item whose ["url"] is absent or empty. *)
Definition no_url (it : item) : Prop :=
  item_url it = None \/ item_url it = Some [].

(** [s.rstrip()] and [s.lstrip()], the two halves of [strip]. *)
Definition rstrip (s : str) : str := rev (dropwhile is_space (rev s)).
Definition lstrip (s : str) : str := dropwhile is_space s.

(** [quote_plus] leaves alone the five parameter names that [to_meta] puts
    in the query string (they are made of unreserved characters only). *)
Definition keeps_param_names (q : str -> str) : Prop :=
  q (py "api_password") = py "api_password"
  /\ q (py "d") = py "d"
  /\ q (py "h_user-agent") = py "h_user-agent"
  /\ q (py "h_referer") = py "h_referer"
  /\ q (py "h_origin") = py "h_origin".

(** The characters of an identifier made by [generate_id]. *)
Definition id_char (c : char) : bool := is_alnum c || N.eqb c 45.

(** The items that [generate_m3u] leaves out because of their name: one of
    the remove words occurs in it, or there are filters and none occurs. *)
Definition name_excluded (it : item) (channel_filters channel_remove : list str)
    : Prop :=
  let name := match item_name it with Some n => n | None => py "Unknown" end in
  any_word_in channel_remove name = true
  \/ (channel_filters <> [] /\ any_word_in channel_filters name = false).

(** Every cached meta object has an id that starts with ["mediaflow-"], as
    the objects made by [to_meta] do. *)
Definition cache_ids_prefixed (w : world) : Prop :=
  forall cached, channel_cache w = Some cached ->
    Forall (fun m => startswith (py "mediaflow-") (m_id m) = true) cached.

(* ------------------------------------------------------------------ *)
(** ** Strings and dictionaries *)

Lemma str_eqb_eq (a b : str) : str_eqb a b = true <-> a = b.
Proof.
  revert b; induction a as [|x a IH]; intros [|y b]; simpl;
    try (split; [discriminate | congruence]); try tauto.
  rewrite andb_true_iff, N.eqb_eq, IH. split.
  - intros [-> ->]; reflexivity.
  - intros E; injection E; auto.
Qed.

Lemma str_eqb_refl (a : str) : str_eqb a a = true.
Proof. apply str_eqb_eq; reflexivity. Qed.

Lemma list_in_In (x : str) (l : list str) : list_in x l = true <-> In x l.
Proof.
  unfold list_in. rewrite existsb_exists. split.
  - intros (y & Hy & E). apply str_eqb_eq in E. subst; assumption.
  - intros H. exists x. split; [assumption | apply str_eqb_refl].
Qed.

Lemma list_in_false (x : str) (l : list str) : list_in x l = false <-> ~ In x l.
Proof.
  rewrite <- list_in_In. destruct (list_in x l); split; intros H;
    try reflexivity; try discriminate; try (intro; discriminate).
  exfalso; apply H; reflexivity.
Qed.

Lemma truthy_false (A : Type) (l : list A) : truthy l = false <-> l = [].
Proof. destruct l; simpl; split; congruence. Qed.

Lemma truthy_true (A : Type) (l : list A) : truthy l = true <-> l <> [].
Proof. destruct l; simpl; split; congruence. Qed.

Lemma dict_get_In (V : Type) (d : dict V) (k : str) (v : V) :
  dict_get d k = Some v -> exists k', In (k', v) d.
Proof.
  induction d as [|[k' v'] d IH]; simpl; [discriminate|].
  destruct (str_eqb k k').
  - intros E; injection E as ->. exists k'; auto.
  - intros E. destruct (IH E) as [k'' H]. exists k''; auto.
Qed.

Lemma dict_set_In (V : Type) (d : dict V) (k : str) (v : V) (k0 : str) (v0 : V) :
  In (k0, v0) (dict_set d k v) -> In (k0, v0) d \/ v0 = v.
Proof.
  induction d as [|[k' v'] d IH]; simpl.
  - intros [E|[]]. injection E; auto.
  - destruct (str_eqb k k'); simpl.
    + intros [E|H]; [injection E; auto | auto].
    + intros [E|H]; [auto | destruct (IH H); auto].
Qed.

(* ------------------------------------------------------------------ *)
(** ** Name normalizer *)

Lemma last3_app (base : str) (a b c : char) : last3 (base ++ [a; b; c]) = [a; b; c].
Proof.
  unfold last3. rewrite length_app. simpl.
  replace (List.length base + 3 - 3) with (List.length base + 0) by lia.
  rewrite skipn_app, Nat.add_0_r, skipn_all.
  replace (List.length base - List.length base) with 0 by lia. reflexivity.
Qed.

Lemma drop_last3_app (base : str) (a b c : char) :
  drop_last3 (base ++ [a; b; c]) = base.
Proof.
  unfold drop_last3. rewrite length_app. simpl.
  replace (List.length base + 3 - 3) with (List.length base) by lia.
  rewrite firstn_app, firstn_all, Nat.sub_diag. simpl. apply app_nil_r.
Qed.

Lemma clean_channel_name_strips (base : str) (w l : char) :
  base <> [] -> is_space w = true -> is_letter l = true ->
  clean_channel_name (base ++ [w; 46%N; l]) = base.
Proof.
  intros Hb Hw Hl. unfold clean_channel_name.
  assert (L : (3 <? List.length (base ++ [w; 46%N; l])) = true).
  { apply Nat.ltb_lt. rewrite length_app. simpl.
    destruct base; [congruence | simpl; lia]. }
  rewrite L, last3_app. simpl. rewrite Hw, Hl. simpl.
  apply drop_last3_app.
Qed.

Lemma clean_channel_name_cases (name : str) :
  clean_channel_name name = name \/ has_marker name (clean_channel_name name).
Proof.
  unfold clean_channel_name.
  destruct (3 <? List.length name) eqn:L; [|left; reflexivity].
  destruct (match_space_dot_letter (last3 name)) eqn:M; [|left; reflexivity].
  right. apply Nat.ltb_lt in L.
  assert (S : name = drop_last3 name ++ last3 name)
    by (unfold drop_last3, last3; symmetry; apply firstn_skipn).
  assert (Len : List.length (last3 name) = 3)
    by (unfold last3; rewrite length_skipn; lia).
  destruct (last3 name) as [|w [|d [|l [|x t]]]]; simpl in Len; try discriminate.
  simpl in M. apply andb_true_iff in M as [M Hl].
  apply andb_true_iff in M as [Hw Hd]. apply N.eqb_eq in Hd. subst d.
  exists w, l. repeat split; try assumption.
  intros E. apply (f_equal (@List.length char)) in E.
  unfold drop_last3 in E. rewrite length_firstn in E. simpl in E. lia.
Qed.

(** C9. A name made of a non-empty base followed by a whitespace character,
    a dot and an ASCII letter of either case (so its length exceeds 3) is
    returned without these three characters: [clean_channel_name] gives the
    base in its original case, the display form, and the callers' comparison
    form [clean_channel_name(name).lower()] is the lower-cased base. A name
    that has no such marker is returned unchanged. *)
Theorem clean_channel_name_marker (name : str) :
  (forall base, has_marker name base ->
     clean_channel_name name = base
     /\ lower (clean_channel_name name) = lower base)
  /\ ((forall base, ~ has_marker name base) -> clean_channel_name name = name).
Proof.
  split.
  - intros base (w & l & -> & Hb & Hw & Hl).
    pose proof (clean_channel_name_strips base w l Hb Hw Hl) as E.
    split; [exact E | f_equal; exact E].
  - intros H. destruct (clean_channel_name_cases name) as [E|M]; [exact E|].
    destruct (H _ M).
Qed.

(* ------------------------------------------------------------------ *)
(** ** Classifier *)

Lemma keyword_scan_In (kws : dict str) (n g : str) :
  keyword_scan kws n = Some g -> In g (map snd kws).
Proof.
  induction kws as [|[k v] kws IH]; simpl; [discriminate|].
  destruct (str_in k n).
  - intros E; injection E; auto.
  - intros E; right; apply IH; exact E.
Qed.

Lemma keywords_genres_available (g : str) :
  In g (map snd keywords) -> In g AVAILABLE_GENRES.
Proof.
  intros H. apply list_in_In.
  assert (A : forallb (fun x => list_in x AVAILABLE_GENRES) (map snd keywords) = true)
    by (vm_compute; reflexivity).
  rewrite forallb_forall in A. apply A. exact H.
Qed.

Lemma general_available : In (py "general") AVAILABLE_GENRES.
Proof. apply list_in_In. vm_compute. reflexivity. Qed.

(** C1. For every channel name and every genre mapping of the data model,
    that is, a mapping whose values all belong to the enumerated set (the
    builder, its only writer, stores clamped genres only), [assign_genre]
    returns a member of the 28-value set. This includes the case where the
    normalized name is a key of the mapping: the result is then the genre
    stored under it, which is a member of the set. *)
Theorem assign_genre_available (channel_name : str) (genre_mapping : dict str) :
  genres_valid genre_mapping ->
  In (assign_genre channel_name genre_mapping) AVAILABLE_GENRES
  /\ (forall g,
        dict_get genre_mapping (lower (clean_channel_name channel_name)) = Some g ->
        assign_genre channel_name genre_mapping = g
        /\ In g AVAILABLE_GENRES).
Proof.
  intros V. unfold assign_genre. split.
  - destruct (dict_get genre_mapping _) as [g|] eqn:G.
    + destruct (dict_get_In _ _ _ _ G) as [k Hk]. exact (V _ _ Hk).
    + destruct (keyword_scan keywords _) as [g|] eqn:K.
      * apply keywords_genres_available, (keyword_scan_In _ _ _ K).
      * apply general_available.
  - intros g G. rewrite G. split; [reflexivity|].
    destruct (dict_get_In _ _ _ _ G) as [k Hk]. exact (V _ _ Hk).
Qed.

(** The clamp of the builder: the genre of an emitted record is always in
    the enumerated set, whatever the mapping and the hint. *)
Lemma entry_genre_available (c : raw_channel) (genre_mapping : dict str) :
  In (entry_genre c genre_mapping) AVAILABLE_GENRES.
Proof.
  unfold entry_genre.
  match goal with |- context [list_in ?g AVAILABLE_GENRES] =>
    destruct (list_in g AVAILABLE_GENRES) eqn:E end.
  - apply list_in_In; exact E.
  - apply general_available.
Qed.

(** The builder keeps the mapping within the enumerated set, which is why
    the persisted mapping satisfies [genres_valid] as long as only the
    builder writes it. *)
Lemma channel_loop_genres_valid (e : env) (icons : dict str)
    (sample : list raw_channel) :
  forall i acc genre_mapping,
    genres_valid genre_mapping ->
    genres_valid (snd (channel_loop e icons i sample acc genre_mapping)).
Proof.
  induction sample as [|c rest IH]; intros i acc gm V; simpl; [exact V|].
  apply IH. destruct (dict_mem gm (clean_channel_name (raw_name c))); [exact V|].
  intros k v H. destruct (dict_set_In _ _ _ _ _ _ H) as [H'| ->].
  - exact (V _ _ H').
  - apply entry_genre_available.
Qed.

(** An entry whose hint is non-empty and outside the set gets "general". *)
Lemma entry_genre_bad_hint (c : raw_channel) (genre_mapping : dict str) (hint : str) :
  raw_genre c = Some hint -> hint <> [] -> ~ In hint AVAILABLE_GENRES ->
  entry_genre c genre_mapping = py "general".
Proof.
  intros H Hne Hout. unfold entry_genre. rewrite H.
  apply truthy_true in Hne. rewrite Hne.
  apply list_in_false in Hout. rewrite Hout. reflexivity.
Qed.

(** The records emitted by the loop, one per entry and in order: the
    [n]-th entry yields the record at position [length acc + n]. *)
Lemma channel_loop_nth (e : env) (icons : dict str) (sample : list raw_channel) :
  forall i acc genre_mapping n c,
    nth_error sample n = Some c ->
    exists r gm,
      nth_error (fst (channel_loop e icons i sample acc genre_mapping))
                (List.length acc + n) = Some r
      /\ ch_name r = raw_name c /\ ch_url r = raw_url c
      /\ ch_genre r = entry_genre c gm.
Proof.
  induction sample as [|c0 rest IH]; intros i acc gm n c H.
  - destruct n; discriminate.
  - destruct n as [|n]; simpl in H.
    + injection H as ->. simpl.
      assert (P : forall l j a g,
                 List.length acc < List.length a ->
                 nth_error (fst (channel_loop e icons j l a g)) (List.length acc)
                 = nth_error a (List.length acc)).
      { induction l as [|x l IHl]; intros j a g Hlt; simpl; [reflexivity|].
        rewrite IHl by (rewrite length_app; simpl; lia).
        apply nth_error_app1; exact Hlt. }
      rewrite Nat.add_0_r, P by (rewrite length_app; simpl; lia).
      rewrite nth_error_app2, Nat.sub_diag by lia. simpl.
      eexists; exists gm; split; [reflexivity|]. simpl. auto.
    + simpl.
      match goal with |- context [channel_loop e icons (S i) rest ?a ?g] =>
        destruct (IH (S i) a g n c H) as (r & gm' & Hn & Hr) end.
      rewrite length_app in Hn. simpl in Hn.
      replace (List.length acc + S n) with (List.length acc + 1 + n) by lia.
      exists r, gm'. split; assumption.
Qed.

(** C2, as amended. In a build that succeeds, an entry whose genre hint is
    non-empty and not a member of the enumerated set is recorded with the
    genre "general": the out-of-set hint is clamped, and neither the genre
    mapping nor the keyword scan is consulted for it. *)
Theorem invalid_hint_gets_general (e : env) (w w' : world)
    (sample : list raw_channel) (n : nat) (c : raw_channel) (hint : str) :
  generate_channel_list e w = (true, w') ->
  f_sample (fs w) = Content sample ->
  nth_error sample n = Some c ->
  raw_genre c = Some hint -> hint <> [] -> ~ In hint AVAILABLE_GENRES ->
  exists snapshot r,
    f_channels (fs w') = Content snapshot
    /\ nth_error snapshot n = Some r
    /\ ch_name r = raw_name c
    /\ ch_genre r = py "general".
Proof.
  intros B S Hn Hh Hne Hout. unfold generate_channel_list in B.
  destruct (negb (truthy (mediaflow_url (load_config (fs w))))
            || negb (truthy (mediaflow_psw (load_config (fs w))))); [discriminate|].
  assert (S1 : load_json_file (f_sample (prepare_files e (fs w))) [] = sample)
    by (unfold prepare_files; simpl; rewrite S; reflexivity).
  rewrite S1 in B.
  destruct (channel_loop_nth e (load_json_file (f_icons (fs w)) []) sample 0 []
              (load_json_file (f_genres (fs w)) []) n c Hn)
    as (r & gm & Hr & Hname & _ & Hg).
  destruct (channel_loop e _ 0 sample [] _) as [channels_data gm'].
  simpl in Hr.
  destruct (write e CHANNELS_FILE); simpl in B; try discriminate.
  injection B as <-. simpl.
  exists channels_data, r. repeat split; try assumption.
  rewrite Hg. exact (entry_genre_bad_hint c gm hint Hh Hne Hout).
Qed.

(* ------------------------------------------------------------------ *)
(** ** Categories and logos of the playlist path *)

(** C3, as amended. [get_category] returns the first category, in the order
    of the map, one of whose keywords occurs (lower-cased) in the lower-cased
    name, and the literal "ALTRI" when no keyword of any category occurs
    in it. *)
Theorem get_category_first_match (channel_name : str)
    (category_keywords : dict (list str)) :
  (forall pre category kws post,
      category_keywords = pre ++ (category, kws) :: post ->
      (forall c' kws', In (c', kws') pre -> any_word_in kws' channel_name = false) ->
      any_word_in kws channel_name = true ->
      get_category channel_name category_keywords = category)
  /\ ((forall c' kws', In (c', kws') category_keywords ->
         any_word_in kws' channel_name = false) ->
      get_category channel_name category_keywords = py "ALTRI").
Proof.
  unfold get_category, any_word_in. split.
  - intros pre category kws post -> Hpre Hhit.
    induction pre as [|[c0 k0] pre IH]; simpl.
    + rewrite Hhit. reflexivity.
    + rewrite (Hpre c0 k0 (or_introl eq_refl)).
      apply IH. intros c' kws' H. apply (Hpre c' kws'). right; exact H.
  - intros Hnone.
    induction category_keywords as [|[c0 k0] rest IH]; simpl; [reflexivity|].
    rewrite (Hnone c0 k0 (or_introl eq_refl)).
    apply IH. intros c' kws' H. apply (Hnone c' kws'). right; exact H.
Qed.

Lemma logo_key_hit_matches (n k : str) :
  logo_key_hit n k = true <-> logo_key_matches n k.
Proof.
  unfold logo_key_hit, logo_key_matches.
  destruct (str_eqb n (normalize_channel_name k)) eqn:E.
  - apply str_eqb_eq in E. split; [intros _; left; exact E | reflexivity].
  - rewrite orb_true_iff. split.
    + intros H. right. exact H.
    + intros [H|H]; [|exact H]. apply str_eqb_eq in H. congruence.
Qed.

Lemma logo_key_miss (n k : str) :
  ~ logo_key_matches n k -> logo_key_hit n k = false.
Proof.
  intros H. destruct (logo_key_hit n k) eqn:E; [|reflexivity].
  apply logo_key_hit_matches in E. contradiction.
Qed.

Lemma placeholder_url_nonempty (channel_name : str) : placeholder_url channel_name <> [].
Proof. unfold placeholder_url. simpl. discriminate. Qed.

(** C5, as amended. [get_logo_url] returns the URL of the first key, in the
    iteration order of the map, that matches the normalized query by
    equality or by containment in either direction; so a key that normalizes
    equal to the query wins when no earlier key matches in any of these
    ways. When no key matches, the result is the placeholder URL built from
    the cleaned name, which is not empty. *)
Theorem get_logo_url_first_hit (channel_name : str) (channel_logos : dict str) :
  (forall pre key url post,
      channel_logos = pre ++ (key, url) :: post ->
      (forall k' u', In (k', u') pre ->
         ~ logo_key_matches (normalize_channel_name channel_name) k') ->
      logo_key_matches (normalize_channel_name channel_name) key ->
      get_logo_url channel_name channel_logos = url)
  /\ ((forall k' u', In (k', u') channel_logos ->
         ~ logo_key_matches (normalize_channel_name channel_name) k') ->
      get_logo_url channel_name channel_logos = placeholder_url channel_name
      /\ placeholder_url channel_name <> []).
Proof.
  unfold get_logo_url. split.
  - intros pre key url post -> Hpre Hhit.
    induction pre as [|[k0 u0] pre IH]; simpl.
    + apply logo_key_hit_matches in Hhit. rewrite Hhit. reflexivity.
    + rewrite (logo_key_miss _ _ (Hpre k0 u0 (or_introl eq_refl))).
      apply IH. intros k' u' H. apply (Hpre k' u'). right; exact H.
  - intros Hnone. split; [|apply placeholder_url_nonempty].
    induction channel_logos as [|[k0 u0] rest IH]; simpl; [reflexivity|].
    rewrite (logo_key_miss _ _ (Hnone k0 u0 (or_introl eq_refl))).
    apply IH. intros k' u' H. apply (Hnone k' u'). right; exact H.
Qed.

(* ------------------------------------------------------------------ *)
(** ** Builder and cache *)

(** C6, as amended. When the write of the snapshot fails in a build that
    got past the configuration check, the build returns [False], the cache
    is not invalidated, and the configuration and icon files are as before;
    the snapshot file is as before when the failure is at [open]. The genre
    mapping is not retained: it is written before the snapshot, so when its
    own write succeeds the file holds the mapping as updated by this
    build. *)
Theorem snapshot_write_failure (e : env) (w : world) :
  write e CHANNELS_FILE <> WriteOk ->
  mediaflow_url (load_config (fs w)) <> [] ->
  mediaflow_psw (load_config (fs w)) <> [] ->
  fst (generate_channel_list e w) = false
  /\ channel_cache (snd (generate_channel_list e w)) = channel_cache w
  /\ f_config (fs (snd (generate_channel_list e w))) = f_config (fs w)
  /\ f_icons (fs (snd (generate_channel_list e w))) = f_icons (fs w)
  /\ (write e CHANNELS_FILE = FailsAtOpen ->
      f_channels (fs (snd (generate_channel_list e w))) = f_channels (fs w))
  /\ (write e GENRE_FILE = WriteOk ->
      f_genres (fs (snd (generate_channel_list e w)))
      = Content (snd (channel_loop e (load_json_file (f_icons (fs w)) []) 0
                        (load_json_file (f_sample (prepare_files e (fs w))) [])
                        [] (load_json_file (f_genres (fs w)) [])))).
Proof.
  intros Hw Hu Hp. unfold generate_channel_list.
  apply truthy_true in Hu, Hp. rewrite Hu, Hp. simpl.
  destruct (channel_loop e _ 0 _ [] _) as [channels_data gm'].
  destruct (write e CHANNELS_FILE) eqn:W; [congruence| |]; simpl;
    (repeat split; try reflexivity; try discriminate;
     intros G; rewrite G; reflexivity).
Qed.

Lemma get_all_channels_after_build (e : env) (w w' : world) :
  generate_channel_list e w = (true, w') ->
  exists snapshot,
    f_channels (fs w') = Content snapshot
    /\ fst (get_all_channels w')
       = map (fun c => to_meta (fs w') c
                         (mediaflow_url (load_config (fs w')))
                         (mediaflow_psw (load_config (fs w')))) snapshot.
Proof.
  unfold generate_channel_list. intros B.
  destruct (negb (truthy (mediaflow_url (load_config (fs w))))
            || negb (truthy (mediaflow_psw (load_config (fs w))))) eqn:C;
    [discriminate|].
  destruct (channel_loop e _ 0 _ [] _) as [channels_data gm'].
  destruct (write e CHANNELS_FILE); simpl in B; try discriminate.
  injection B as <-. exists channels_data. split; [reflexivity|].
  unfold get_all_channels, load_config in *. simpl. rewrite C.
  destruct channels_data; reflexivity.
Qed.

Lemma get_all_channels_again (w : world) (d' : disk) :
  f_config d' = f_config (fs (snd (get_all_channels w))) ->
  f_channels d' = f_channels (fs (snd (get_all_channels w))) ->
  fst (get_all_channels
         {| fs := d'; channel_cache := channel_cache (snd (get_all_channels w)) |})
  = fst (get_all_channels w).
Proof.
  unfold get_all_channels, load_config.
  destruct (channel_cache w) as [cached|] eqn:C; simpl.
  - intros _ _. rewrite C. reflexivity.
  - destruct (negb (truthy (mediaflow_url (load_json_file (f_config (fs w)) _)))
              || negb (truthy (mediaflow_psw (load_json_file (f_config (fs w)) _))))
      eqn:K; simpl.
    + intros E _. rewrite C, E, K. reflexivity.
    + destruct (negb (truthy (load_json_file (f_channels (fs w)) []))) eqn:L; simpl.
      * intros E1 E2. rewrite C, E1, K, E2, L. reflexivity.
      * intros _ _. reflexivity.
Qed.

(** C7. A second [get_all_channels] call, made with the cache as the first
    call left it and with the configuration and snapshot files unchanged,
    returns the same list as the first; and after a build that succeeds,
    whatever the cache held before, the next call returns the projection of
    the snapshot that this build has just written. *)
Theorem cache_get_stable (w : world) :
  (forall d',
      f_config d' = f_config (fs (snd (get_all_channels w))) ->
      f_channels d' = f_channels (fs (snd (get_all_channels w))) ->
      fst (get_all_channels
             {| fs := d';
                channel_cache := channel_cache (snd (get_all_channels w)) |})
      = fst (get_all_channels w))
  /\ (forall e w',
        generate_channel_list e w = (true, w') ->
        exists snapshot,
          f_channels (fs w') = Content snapshot
          /\ channel_cache w' = None
          /\ fst (get_all_channels w')
             = map (fun c => to_meta (fs w') c
                               (mediaflow_url (load_config (fs w')))
                               (mediaflow_psw (load_config (fs w')))) snapshot).
Proof.
  split.
  - apply get_all_channels_again.
  - intros e w' B.
    destruct (get_all_channels_after_build e w w' B) as (s & Hs & Hg).
    exists s. repeat split; try assumption.
    unfold generate_channel_list in B.
    destruct (negb _ || negb _); [discriminate|].
    destruct (channel_loop e _ 0 _ [] _) as [cd gm'].
    destruct (write e CHANNELS_FILE); simpl in B; try discriminate.
    injection B as <-. reflexivity.
Qed.

(* ------------------------------------------------------------------ *)
(** ** Playlist exporter *)

Lemma fetch_loop_stops (pages : list (list item)) (stop : response)
    (rest : list response) :
  Forall (fun p => p <> []) pages -> ends_pagination stop ->
  forall cursor all_items posted,
    fetch_loop (map (fun p => Answer (Some p)) pages ++ stop :: rest)
               cursor all_items posted
    = Some (posted ++ cursors_from cursor pages, all_items ++ List.concat pages).
Proof.
  intros Hp Hs. induction Hp as [|p ps Hne _ IH]; intros cursor acc posted; simpl.
  - rewrite app_nil_r. destruct Hs as [->|[->| ->]]; reflexivity.
  - apply truthy_true in Hne. rewrite Hne. simpl. rewrite IH.
    rewrite <- !app_assoc. reflexivity.
Qed.

Lemma fetch_loop_goes_on (pages : list (list item)) :
  Forall (fun p => p <> []) pages ->
  forall cursor all_items posted,
    fetch_loop (map (fun p => Answer (Some p)) pages) cursor all_items posted = None.
Proof.
  intros Hp. induction Hp as [|p ps Hne _ IH]; intros cursor acc posted; simpl.
  - reflexivity.
  - apply truthy_true in Hne. rewrite Hne. simpl. apply IH.
Qed.

Lemma length_concat_sum (A : Type) (ls : list (list A)) :
  List.length (List.concat ls) = list_sum (map (@List.length A) ls).
Proof.
  induction ls as [|l ls IH]; simpl; [reflexivity|].
  rewrite length_app, IH. reflexivity.
Qed.

(** C8. When the upstream answers with the non-empty pages [pages] and then
    with a response that ends the pagination (a failed call, or a page with
    no item), [get_channel_list] returns, without raising, the concatenation
    of the pages received, whose length is the sum of their sizes; the
    cursor posted with each call is the previous one plus the size of the
    page just received, starting from 0; and as long as only non-empty pages
    have come the loop has not stopped. *)
Theorem get_channel_list_pages (pages : list (list item)) (stop : response)
    (rest : list response) :
  Forall (fun p => p <> []) pages -> ends_pagination stop ->
  get_channel_list (map (fun p => Answer (Some p)) pages ++ stop :: rest)
  = Some (cursors_from 0 pages, List.concat pages)
  /\ List.length (List.concat pages) = list_sum (map (@List.length item) pages)
  /\ get_channel_list (map (fun p => Answer (Some p)) pages) = None.
Proof.
  intros Hp Hs. unfold get_channel_list. repeat split.
  - rewrite (fetch_loop_stops pages stop rest Hp Hs). reflexivity.
  - apply length_concat_sum.
  - apply fetch_loop_goes_on; exact Hp.
Qed.

Lemma m3u_loop_concat (items : list item) (channel_filters channel_remove : list str)
    (category_keywords : dict (list str)) (channel_logos : dict str) :
  forall written,
    m3u_loop items channel_filters channel_remove category_keywords
      channel_logos written
    = written
      ++ List.concat (map (fun it => m3u_entry it channel_filters channel_remove
                                  category_keywords channel_logos) items).
Proof.
  induction items as [|it rest IH]; intros written; simpl.
  - symmetry; apply app_nil_r.
  - rewrite IH, <- app_assoc. reflexivity.
Qed.

Lemma m3u_entry_no_url (it : item) (channel_filters channel_remove : list str)
    (category_keywords : dict (list str)) (channel_logos : dict str) :
  no_url it ->
  m3u_entry it channel_filters channel_remove category_keywords channel_logos = [].
Proof.
  intros H. unfold m3u_entry.
  destruct (any_word_in channel_remove _); [reflexivity|].
  destruct (truthy channel_filters && negb (any_word_in channel_filters _));
    [reflexivity|].
  destruct H as [-> | ->]; reflexivity.
Qed.

(** C10. An item whose ["url"] is absent or empty makes [generate_m3u]
    write nothing for it, neither the [#EXTINF] line nor the header
    directives nor a URL line; the file is the header line followed by what
    the items before it and the items after it give on their own, in
    order. *)
Theorem generate_m3u_skips_no_url (before after : list item) (it : item)
    (signature : str) (channel_filters channel_remove : list str)
    (category_keywords : dict (list str)) (channel_logos : dict str) :
  no_url it ->
  m3u_entry it channel_filters channel_remove category_keywords channel_logos = []
  /\ generate_m3u (before ++ it :: after) signature channel_filters
       channel_remove category_keywords channel_logos
     = Some (m3u_header
             ++ List.concat (map (fun x => m3u_entry x channel_filters channel_remove
                                        category_keywords channel_logos) before)
             ++ List.concat (map (fun x => m3u_entry x channel_filters channel_remove
                                        category_keywords channel_logos) after)).
Proof.
  intros H.
  pose proof (m3u_entry_no_url it channel_filters channel_remove
                category_keywords channel_logos H) as E.
  split; [exact E|]. unfold generate_m3u.
  replace (truthy (before ++ it :: after)) with true
    by (destruct before; reflexivity).
  simpl. rewrite m3u_loop_concat, map_app, concat_app. simpl.
  rewrite E. reflexivity.
Qed.

(* ------------------------------------------------------------------ *)
(** ** Further properties of [app.py] *)

Lemma dict_get_dict_set (V : Type) (d : dict V) (k k' : str) (v : V) :
  dict_get (dict_set d k v) k'
  = if str_eqb k' k then Some v else dict_get d k'.
Proof.
  induction d as [|[k0 v0] d IH]; simpl.
  - reflexivity.
  - destruct (str_eqb k k0) eqn:E; simpl.
    + apply str_eqb_eq in E. subst k0. destruct (str_eqb k' k); reflexivity.
    + destruct (str_eqb k' k0) eqn:E0.
      * destruct (str_eqb k' k) eqn:E1; [|reflexivity].
        apply str_eqb_eq in E0, E1. subst. rewrite str_eqb_refl in E. discriminate.
      * exact IH.
Qed.

(** X1. A name is never cleaned down to nothing: the result of
    [clean_channel_name] is the name itself or the name without its last
    three characters, and it is empty only when the name is. *)
Theorem clean_channel_name_prefix (name : str) :
  (clean_channel_name name = name
   \/ exists a b c, name = clean_channel_name name ++ [a; b; c])
  /\ (name <> [] -> clean_channel_name name <> []).
Proof.
  destruct (clean_channel_name_cases name) as [E|(w & l & E & Hb & _)].
  - rewrite E. split; [left; reflexivity | auto].
  - split; [right; exists w, 46%N, l; exact E | intros _; exact Hb].
Qed.

Lemma string_of_uint_digits (u : Decimal.uint) :
  Forall (fun c => is_alnum c = true) (py (NilEmpty.string_of_uint u)).
Proof.
  induction u; simpl; try constructor; try reflexivity; assumption.
Qed.

(** X2. An identifier made by [generate_id] holds only ASCII letters,
    digits and hyphens, whatever the channel name, and it has exactly two
    hyphens: the ones that separate the name part, the time and the random
    number. *)
Theorem generate_id_charset (name : str) (now rnd : N) :
  Forall (fun c => id_char c = true) (generate_id name now rnd)
  /\ count_occ N.eq_dec (generate_id name now rnd) 45%N = 2.
Proof.
  unfold generate_id, str_of_N.
  assert (F : Forall (fun c => is_alnum c = true)
                (filter is_alnum (lower (clean_channel_name name)))).
  { apply Forall_forall. intros c H. apply filter_In in H. apply H. }
  assert (M : forall l, Forall (fun c => is_alnum c = true) l ->
                        Forall (fun c => id_char c = true) l).
  { intros l H. eapply Forall_impl; [|exact H].
    intros c Hc. unfold id_char. rewrite Hc. reflexivity. }
  assert (Hy : Forall (fun c => id_char c = true) (py "-"))
    by (repeat constructor).
  assert (Z : forall l, Forall (fun c => is_alnum c = true) l ->
                        count_occ N.eq_dec l 45%N = 0).
  { intros l H. induction H as [|c l Hc _ IH]; simpl; [reflexivity|].
    destruct (N.eq_dec c 45) as [->|_]; [discriminate Hc | exact IH]. }
  split.
  - repeat (apply Forall_app; split);
      auto using string_of_uint_digits.
  - pose proof (Z _ F) as E1.
    pose proof (Z _ (string_of_uint_digits (N.to_uint now))) as E2.
    pose proof (Z _ (string_of_uint_digits (N.to_uint rnd))) as E3.
    unfold char in *. rewrite !count_occ_app, E1, E2, E3. reflexivity.
Qed.

Lemma generate_channel_list_stops (e : env) (w : world) :
  mediaflow_url (load_config (fs w)) = []
  \/ mediaflow_psw (load_config (fs w)) = [] ->
  generate_channel_list e w = (false, w).
Proof.
  intros H. unfold generate_channel_list.
  destruct H as [H|H]; rewrite H; simpl; [reflexivity|].
  rewrite orb_true_r. reflexivity.
Qed.

(** X3. Without a complete configuration the builder does nothing: it
    returns [False] and leaves every file and the cache as they were. *)
Theorem generate_channel_list_unconfigured (e : env) (w : world) :
  mediaflow_url (load_config (fs w)) = []
  \/ mediaflow_psw (load_config (fs w)) = [] ->
  generate_channel_list e w = (false, w).
Proof. apply generate_channel_list_stops. Qed.

Lemma channel_loop_records (e : env) (icons : dict str) (sample : list raw_channel) :
  forall i acc genre_mapping,
  exists recs,
    fst (channel_loop e icons i sample acc genre_mapping) = acc ++ recs
    /\ map ch_name recs = map raw_name sample
    /\ map ch_url recs = map raw_url sample
    /\ Forall (fun r => In (ch_genre r) AVAILABLE_GENRES) recs.
Proof.
  induction sample as [|c rest IH]; intros i acc gm; simpl.
  - exists []. rewrite app_nil_r. repeat split; constructor.
  - match goal with |- context [channel_loop e icons (S i) rest (acc ++ [?r]) ?g] =>
      destruct (IH (S i) (acc ++ [r]) g) as (recs & E & Hn & Hu & Hg);
      exists (r :: recs) end.
    rewrite E, <- app_assoc. simpl. rewrite Hn, Hu.
    repeat split. constructor; [apply entry_genre_available | exact Hg].
Qed.

(** How a successful build relates its result to its parts. *)
Lemma generate_channel_list_success (e : env) (w w' : world) :
  generate_channel_list e w = (true, w') ->
  f_channels (fs w')
  = Content (fst (channel_loop e (load_json_file (f_icons (fs w)) []) 0
                    (load_json_file (f_sample (prepare_files e (fs w))) [])
                    [] (load_json_file (f_genres (fs w)) []))).
Proof.
  unfold generate_channel_list. intros B.
  destruct (negb _ || negb _); [discriminate|].
  destruct (channel_loop e _ 0 _ [] _) as [channels_data gm'].
  destruct (write e CHANNELS_FILE); simpl in B; try discriminate.
  injection B as <-. reflexivity.
Qed.

(** X4. A build that succeeds writes one record per entry of the sample
    file, in the same order, with the name and the URL of the entry
    unchanged (the name keeps its marker). *)
Theorem snapshot_follows_sample (e : env) (w w' : world)
    (sample : list raw_channel) :
  generate_channel_list e w = (true, w') ->
  f_sample (fs w) = Content sample ->
  exists snapshot,
    f_channels (fs w') = Content snapshot
    /\ map ch_name snapshot = map raw_name sample
    /\ map ch_url snapshot = map raw_url sample.
Proof.
  intros B S. rewrite (generate_channel_list_success e w w' B).
  assert (S1 : load_json_file (f_sample (prepare_files e (fs w))) [] = sample)
    by (unfold prepare_files; simpl; rewrite S; reflexivity).
  rewrite S1.
  destruct (channel_loop_records e (load_json_file (f_icons (fs w)) []) sample 0 []
              (load_json_file (f_genres (fs w)) [])) as (recs & E & Hn & Hu & _).
  rewrite E. simpl. exists recs. auto.
Qed.

(** X5. Every record of a snapshot written by a successful build has a
    genre of the enumerated set, whatever the sample file, the hints and the
    genre mapping hold. *)
Theorem snapshot_genres_available (e : env) (w w' : world) :
  generate_channel_list e w = (true, w') ->
  exists snapshot,
    f_channels (fs w') = Content snapshot
    /\ Forall (fun r => In (ch_genre r) AVAILABLE_GENRES) snapshot.
Proof.
  intros B. rewrite (generate_channel_list_success e w w' B).
  destruct (channel_loop_records e (load_json_file (f_icons (fs w)) [])
              (load_json_file (f_sample (prepare_files e (fs w))) []) 0 []
              (load_json_file (f_genres (fs w)) [])) as (recs & E & _ & _ & Hg).
  rewrite E. simpl. exists recs. auto.
Qed.

Lemma entry_genre_good_hint (c : raw_channel) (genre_mapping : dict str) (hint : str) :
  raw_genre c = Some hint -> In hint AVAILABLE_GENRES ->
  entry_genre c genre_mapping = hint.
Proof.
  intros H Hin. unfold entry_genre. rewrite H.
  assert (T : truthy hint = true).
  { destruct hint; [|reflexivity]. apply list_in_In in Hin. discriminate Hin. }
  rewrite T. apply list_in_In in Hin. rewrite Hin. reflexivity.
Qed.

(** X6. A genre hint that belongs to the enumerated set is recorded as it
    is: it takes precedence over the genre mapping and over the keywords. *)
Theorem valid_hint_is_recorded (e : env) (w w' : world)
    (sample : list raw_channel) (n : nat) (c : raw_channel) (hint : str) :
  generate_channel_list e w = (true, w') ->
  f_sample (fs w) = Content sample ->
  nth_error sample n = Some c ->
  raw_genre c = Some hint -> In hint AVAILABLE_GENRES ->
  exists snapshot r,
    f_channels (fs w') = Content snapshot
    /\ nth_error snapshot n = Some r
    /\ ch_name r = raw_name c
    /\ ch_genre r = hint.
Proof.
  intros B S Hn Hh Hin. rewrite (generate_channel_list_success e w w' B).
  assert (S1 : load_json_file (f_sample (prepare_files e (fs w))) [] = sample)
    by (unfold prepare_files; simpl; rewrite S; reflexivity).
  rewrite S1.
  destruct (channel_loop_nth e (load_json_file (f_icons (fs w)) []) sample 0 []
              (load_json_file (f_genres (fs w)) []) n c Hn)
    as (r & gm & Hr & Hname & _ & Hg).
  simpl in Hr. eexists; exists r. split; [reflexivity|].
  repeat split; try assumption.
  rewrite Hg. exact (entry_genre_good_hint c gm hint Hh Hin).
Qed.

Lemma channel_loop_keeps_entries (e : env) (icons : dict str)
    (sample : list raw_channel) :
  forall i acc genre_mapping k v,
    dict_get genre_mapping k = Some v ->
    dict_get (snd (channel_loop e icons i sample acc genre_mapping)) k = Some v.
Proof.
  induction sample as [|c rest IH]; intros i acc gm k v H; simpl; [exact H|].
  apply IH.
  destruct (dict_mem gm (clean_channel_name (raw_name c))) eqn:M; [exact H|].
  rewrite dict_get_dict_set.
  destruct (str_eqb k (clean_channel_name (raw_name c))) eqn:E; [|exact H].
  apply str_eqb_eq in E. subst k. unfold dict_mem in M. rewrite H in M.
  discriminate.
Qed.

Lemma channel_loop_has_keys (e : env) (icons : dict str)
    (sample : list raw_channel) :
  forall i acc genre_mapping c,
    In c sample ->
    dict_mem (snd (channel_loop e icons i sample acc genre_mapping))
             (clean_channel_name (raw_name c)) = true.
Proof.
  induction sample as [|c0 rest IH]; intros i acc gm c H; [destruct H|].
  destruct H as [->|H]; simpl; [|apply IH; exact H].
  match goal with |- context [channel_loop e icons (S i) rest ?a ?g] =>
    assert (K : exists v, dict_get g (clean_channel_name (raw_name c)) = Some v) end.
  { unfold dict_mem.
    destruct (dict_get gm (clean_channel_name (raw_name c))) as [v|] eqn:G.
    - exists v; exact G.
    - eexists. rewrite dict_get_dict_set, str_eqb_refl. reflexivity. }
  destruct K as [v K]. unfold dict_mem at 1.
  rewrite (channel_loop_keeps_entries e icons rest _ _ _ _ _ K). reflexivity.
Qed.

Lemma generate_channel_list_genres (e : env) (w : world) :
  mediaflow_url (load_config (fs w)) <> [] ->
  mediaflow_psw (load_config (fs w)) <> [] ->
  f_genres (fs (snd (generate_channel_list e w)))
  = snd (save_json_file (write e GENRE_FILE) (f_genres (fs w))
           (snd (channel_loop e (load_json_file (f_icons (fs w)) []) 0
                   (load_json_file (f_sample (prepare_files e (fs w))) [])
                   [] (load_json_file (f_genres (fs w)) [])))).
Proof.
  intros Hu Hp. unfold generate_channel_list.
  apply truthy_true in Hu, Hp. rewrite Hu, Hp. simpl.
  destruct (channel_loop e _ 0 _ [] _) as [channels_data gm'].
  destruct (write e CHANNELS_FILE); reflexivity.
Qed.

(** X7. First write wins in the genre mapping: after a build whose write
    of the genre file succeeds, every name that the file mapped before is
    still mapped to the same genre, whatever the sample entries and their
    hints say. *)
Theorem genre_mapping_first_write_wins (e : env) (w : world) (k v : str) :
  mediaflow_url (load_config (fs w)) <> [] ->
  mediaflow_psw (load_config (fs w)) <> [] ->
  write e GENRE_FILE = WriteOk ->
  dict_get (load_json_file (f_genres (fs w)) []) k = Some v ->
  exists genre_mapping,
    f_genres (fs (snd (generate_channel_list e w))) = Content genre_mapping
    /\ dict_get genre_mapping k = Some v.
Proof.
  intros Hu Hp Hw H. rewrite (generate_channel_list_genres e w Hu Hp), Hw. simpl.
  eexists; split; [reflexivity|].
  apply channel_loop_keeps_entries. exact H.
Qed.

(** X8. After a build whose write of the genre file succeeds, the cleaned
    name of every entry of the sample file is a key of the persisted
    mapping. *)
Theorem genre_mapping_covers_sample (e : env) (w : world)
    (sample : list raw_channel) (c : raw_channel) :
  mediaflow_url (load_config (fs w)) <> [] ->
  mediaflow_psw (load_config (fs w)) <> [] ->
  write e GENRE_FILE = WriteOk ->
  f_sample (fs w) = Content sample -> In c sample ->
  exists genre_mapping,
    f_genres (fs (snd (generate_channel_list e w))) = Content genre_mapping
    /\ dict_mem genre_mapping (clean_channel_name (raw_name c)) = true.
Proof.
  intros Hu Hp Hw S H. rewrite (generate_channel_list_genres e w Hu Hp), Hw. simpl.
  eexists; split; [reflexivity|].
  apply channel_loop_has_keys.
  unfold prepare_files; simpl; rewrite S; exact H.
Qed.

(** X9. The builder keeps the genre file within the enumerated set: if
    every genre it holds before a run is a member of the set, so is every
    genre it holds after the run, whether the run succeeds, fails or stops
    at the configuration check. *)
Theorem generate_channel_list_keeps_genres_valid (e : env) (w : world) :
  genres_valid (load_json_file (f_genres (fs w)) []) ->
  genres_valid
    (load_json_file (f_genres (fs (snd (generate_channel_list e w)))) []).
Proof.
  intros V.
  destruct (mediaflow_url (load_config (fs w))) as [|a u] eqn:Hu.
  { rewrite generate_channel_list_stops by (left; exact Hu). exact V. }
  destruct (mediaflow_psw (load_config (fs w))) as [|b p] eqn:Hp.
  { rewrite generate_channel_list_stops by (right; exact Hp). exact V. }
  rewrite generate_channel_list_genres by (rewrite ?Hu, ?Hp; discriminate).
  destruct (write e GENRE_FILE); simpl.
  - apply channel_loop_genres_valid. exact V.
  - exact V.
  - intros k v [].
Qed.

(** X10. The builder records the genre of an entry under its cleaned name
    in the original case, and [assign_genre] looks names up in lower case:
    unless the cleaned name is already in lower case, recording the entry
    leaves the answer of [assign_genre] for that very name as it was. *)
Theorem recorded_genre_not_looked_up (channel_name genre : str)
    (genre_mapping : dict str) :
  lower (clean_channel_name channel_name) <> clean_channel_name channel_name ->
  assign_genre channel_name
    (dict_set genre_mapping (clean_channel_name channel_name) genre)
  = assign_genre channel_name genre_mapping.
Proof.
  intros H. unfold assign_genre. rewrite dict_get_dict_set.
  destruct (str_eqb (lower (clean_channel_name channel_name))
                    (clean_channel_name channel_name)) eqn:E; [|reflexivity].
  apply str_eqb_eq in E. contradiction.
Qed.

(** X11. [get_all_channels] never touches the files, and it does not
    memoize an empty answer: when the cache is empty and the call returns no
    channel (no configuration, or no snapshot), the cache is still empty
    afterwards, so the next call reads the files again. *)
Theorem get_all_channels_reads_only (w : world) :
  fs (snd (get_all_channels w)) = fs w
  /\ (channel_cache w = None -> fst (get_all_channels w) = [] ->
      channel_cache (snd (get_all_channels w)) = None).
Proof.
  unfold get_all_channels.
  destruct (channel_cache w) as [cached|] eqn:C; simpl.
  - split; [reflexivity | discriminate].
  - destruct (negb _ || negb _); simpl; [split; auto|].
    destruct (load_json_file (f_channels (fs w)) []) as [|c cs]; simpl;
      [split; auto|].
    split; [reflexivity | discriminate].
Qed.

(** X12. The icon stored in a snapshot record plays no part in what is
    served: two records that agree on id, name, URL and genre give the same
    meta object, the logo being looked up again in the icon file. *)
Theorem to_meta_ignores_stored_icon (d : disk) (c c' : channel) (url psw : str) :
  ch_id c = ch_id c' -> ch_name c = ch_name c' -> ch_url c = ch_url c' ->
  ch_genre c = ch_genre c' ->
  to_meta d c url psw = to_meta d c' url psw.
Proof.
  intros H1 H2 H3 H4. unfold to_meta. rewrite H1, H2, H3, H4. reflexivity.
Qed.

(** X13. When [quote_plus] keeps the five parameter names as they are, the
    stream URL of a meta object is the proxy address on the configured host
    followed by the password, the quoted channel URL and the three quoted
    transport headers, in this order. *)
Theorem to_meta_stream_url (d : disk) (c : channel) (url psw : str) :
  keeps_param_names quote_plus ->
  si_url (m_streamInfo (to_meta d c url psw))
  = py "https://" ++ url ++ py "/proxy/hls/manifest.m3u8?api_password="
    ++ quote_plus psw
    ++ py "&d=" ++ quote_plus (ch_url c)
    ++ py "&h_user-agent="
    ++ quote_plus (py "Mozilla/5.0 (Windows NT 10.0; Win64; x64) AppleWebKit/537.36 (KHTML, like Gecko) Chrome/133.0.0.0 Safari/537.36")
    ++ py "&h_referer=" ++ quote_plus (py "https://vavoo.to/")
    ++ py "&h_origin=" ++ quote_plus (py "https://vavoo.to").
Proof.
  intros (H1 & H2 & H3 & H4 & H5).
  unfold to_meta, urlencode. cbn [si_url m_streamInfo].
  cbv in H1, H2, H3, H4, H5. cbv.
  rewrite H1, H2, H3, H4, H5. reflexivity.
Qed.

(* ------------------------------------------------------------------ *)
(** ** Route handlers *)

Lemma startswith_app (p s : str) : startswith p (p ++ s) = true.
Proof.
  induction p as [|x p IH]; simpl; [destruct s; reflexivity|].
  rewrite N.eqb_refl. exact IH.
Qed.

Lemma get_all_channels_twice (w : world) :
  get_all_channels (snd (get_all_channels w))
  = (fst (get_all_channels w), snd (get_all_channels w)).
Proof.
  unfold get_all_channels.
  destruct (channel_cache w) as [cached|] eqn:C; simpl.
  - rewrite C. reflexivity.
  - destruct (negb _ || negb _) eqn:K; simpl; [rewrite C, K; reflexivity|].
    destruct (negb (truthy (load_json_file (f_channels (fs w)) []))) eqn:L; simpl.
    + rewrite C, K, L. reflexivity.
    + reflexivity.
Qed.

Lemma get_all_channels_ids (w : world) :
  cache_ids_prefixed w ->
  Forall (fun m => startswith (py "mediaflow-") (m_id m) = true)
         (fst (get_all_channels w)).
Proof.
  intros P. unfold get_all_channels.
  destruct (channel_cache w) as [cached|] eqn:C; simpl.
  - apply P. exact C.
  - destruct (negb _ || negb _); simpl; [constructor|].
    destruct (negb (truthy (load_json_file (f_channels (fs w)) []))); simpl;
      [constructor|].
    apply Forall_forall. intros m H. apply in_map_iff in H as (c & <- & _).
    apply (startswith_app (py "mediaflow-") (ch_id c)).
Qed.

Lemma find_channel_In (all_channels : list meta) (m : meta) :
  In m all_channels ->
  exists m', find_channel all_channels (m_id m) = Some m' /\ m_id m' = m_id m.
Proof.
  unfold find_channel. induction all_channels as [|x l IH]; intros H; [destruct H|].
  simpl. destruct (str_eqb (m_id x) (m_id m)) eqn:E.
  - exists x. split; [reflexivity | apply str_eqb_eq; exact E].
  - destruct H as [->|H]; [rewrite str_eqb_refl in E; discriminate | exact (IH H)].
Qed.

(** X14. The three lookup routes answer a request for another type than
    ["tv"], or for an id that does not start with ["mediaflow-"], with an
    empty result, without reading any file and without filling the cache. *)
Theorem routes_reject_foreign_ids (w : world) (type id : str) (search : option str) :
  type <> py "tv" \/ startswith (py "mediaflow-") id = false ->
  catalog w type id search = ([], w)
  /\ meta_route w type id = (None, w)
  /\ stream_route w type id = ([], w).
Proof.
  intros H.
  assert (G : negb (str_eqb type (py "tv")) || negb (startswith (py "mediaflow-") id)
              = true).
  { destruct H as [H|H].
    - destruct (str_eqb type (py "tv")) eqn:E; [|reflexivity].
      apply str_eqb_eq in E. contradiction.
    - rewrite H. apply orb_true_r. }
  unfold catalog, meta_route, stream_route. rewrite G. auto.
Qed.

(** X15. The stream route and the meta route agree: for every request the
    stream route returns the stream of the very channel that the meta route
    returns, and no stream when the meta route finds no channel; both leave
    the same state behind. *)
Theorem stream_route_follows_meta_route (w : world) (type id : str) :
  stream_route w type id
  = (match fst (meta_route w type id) with
     | Some channel => [m_streamInfo channel]
     | None => []
     end,
     snd (meta_route w type id)).
Proof.
  unfold stream_route, meta_route.
  destruct (negb _ || negb _); [reflexivity|].
  destruct (get_all_channels w) as [all_channels w'].
  destruct (find_channel all_channels id); reflexivity.
Qed.

Lemma manifest_id_parses (genre : str) :
  In genre AVAILABLE_GENRES ->
  nth 1 (split_on 45%N (py "mediaflow-" ++ genre)) [] = genre.
Proof.
  intros H.
  assert (A : forallb (fun g => str_eqb (nth 1 (split_on 45%N (py "mediaflow-" ++ g)) []) g)
                AVAILABLE_GENRES = true) by (vm_compute; reflexivity).
  rewrite forallb_forall in A. apply str_eqb_eq, A, H.
Qed.

(** X16. The manifest advertises 28 catalogs, one per genre of the
    enumerated set, and each advertised catalog is served: a request for its
    type and id, without a search string, returns exactly the channels whose
    genre list holds that genre. *)
Theorem manifest_catalogs_are_served (url psw : str) (w : world) :
  List.length (man_catalogs (create_manifest url psw)) = 28
  /\ (forall genre, In genre AVAILABLE_GENRES ->
        exists c, In c (man_catalogs (create_manifest url psw))
                  /\ cat_id c = py "mediaflow-" ++ genre)
  /\ (forall c, In c (man_catalogs (create_manifest url psw)) ->
        exists genre,
          In genre AVAILABLE_GENRES
          /\ cat_id c = py "mediaflow-" ++ genre
          /\ fst (catalog w (cat_type c) (cat_id c) None)
             = filter (fun m => list_in genre (m_genres m))
                      (fst (get_all_channels w))).
Proof.
  split; [reflexivity|]. split.
  - intros genre H. eexists. split.
    + unfold create_manifest; cbn [man_catalogs].
      apply in_map_iff. exists genre. split; [reflexivity | exact H].
    + reflexivity.
  - intros c H. unfold create_manifest in H; cbn [man_catalogs] in H.
    apply in_map_iff in H as (genre & <- & Hg).
    exists genre. split; [exact Hg|]. split; [reflexivity|].
    cbn [cat_type cat_id]. unfold catalog.
    rewrite (startswith_app (py "mediaflow-") genre), (manifest_id_parses genre Hg).
    change (str_eqb (py "tv") (py "tv")) with true. simpl negb. simpl orb.
    cbv iota.
    destruct (get_all_channels w) as [all_channels w']. reflexivity.
Qed.

(** X17. Every channel listed by the catalog route can be looked up: when
    the cached ids (if any) carry the prefix, the meta route, asked right
    after for the id of a listed channel, finds a channel with that id. *)
Theorem catalog_ids_resolve (w : world) (id : str) (search : option str) (m : meta) :
  cache_ids_prefixed w ->
  In m (fst (catalog w (py "tv") id search)) ->
  exists m',
    fst (meta_route (snd (catalog w (py "tv") id search)) (py "tv") (m_id m))
    = Some m'
    /\ m_id m' = m_id m.
Proof.
  intros P H. unfold catalog in *.
  destruct (negb (str_eqb (py "tv") (py "tv"))
            || negb (startswith (py "mediaflow-") id)); [destruct H|].
  pose proof (get_all_channels_ids w P) as Ids.
  pose proof (get_all_channels_twice w) as T.
  destruct (get_all_channels w) as [all_channels w']. cbn [fst snd] in *.
  assert (Hin : In m all_channels).
  { destruct search as [s|]; [destruct (truthy s)|];
      apply filter_In in H; apply H. }
  unfold meta_route.
  rewrite Forall_forall in Ids. rewrite (Ids m Hin).
  change (str_eqb (py "tv") (py "tv")) with true. simpl negb. simpl orb.
  cbv iota. rewrite T. cbn [fst snd].
  apply find_channel_In. exact Hin.
Qed.

Lemma generate_channel_list_keeps_config (e : env) (w : world) :
  f_config (fs (snd (generate_channel_list e w))) = f_config (fs w).
Proof.
  unfold generate_channel_list.
  destruct (negb _ || negb _); [reflexivity|].
  destruct (channel_loop e _ 0 _ [] _) as [channels_data gm'].
  destruct (write e CHANNELS_FILE); reflexivity.
Qed.

Lemma generate_channel_list_failed_keeps_cache (e : env) (w : world) :
  write e CHANNELS_FILE <> WriteOk ->
  channel_cache (snd (generate_channel_list e w)) = channel_cache w.
Proof.
  intros H. unfold generate_channel_list.
  destruct (negb _ || negb _); [reflexivity|].
  destruct (channel_loop e _ 0 _ [] _) as [channels_data gm'].
  destruct (write e CHANNELS_FILE); [congruence | reflexivity | reflexivity].
Qed.

(** X19. When the write of the configuration fails, [save_configuration]
    answers with status 500 and no build is run: cache, genre file, snapshot,
    header file and sample file are untouched. The configuration file is
    untouched too when the failure is at [open]; when the write is torn, the
    installation is left without a configuration. *)
Theorem save_configuration_write_fails (e : env) (url psw : str) (w : world) :
  url <> [] -> psw <> [] -> write e CONFIG_FILE <> WriteOk ->
  fst (save_configuration e url psw w)
  = HTTPException 500 (py "Errore nel salvataggio della configurazione")
  /\ channel_cache (snd (save_configuration e url psw w)) = channel_cache w
  /\ f_genres (fs (snd (save_configuration e url psw w))) = f_genres (fs w)
  /\ f_channels (fs (snd (save_configuration e url psw w))) = f_channels (fs w)
  /\ f_headers (fs (snd (save_configuration e url psw w))) = f_headers (fs w)
  /\ f_sample (fs (snd (save_configuration e url psw w))) = f_sample (fs w)
  /\ (write e CONFIG_FILE = FailsAtOpen ->
      f_config (fs (snd (save_configuration e url psw w))) = f_config (fs w))
  /\ (write e CONFIG_FILE = FailsMidway ->
      load_config (fs (snd (save_configuration e url psw w)))
      = {| mediaflow_url := []; mediaflow_psw := [] |}).
Proof.
  intros Hu Hp Hw. unfold save_configuration, save_config.
  apply truthy_true in Hu, Hp. rewrite Hu, Hp. simpl.
  destruct (write e CONFIG_FILE); [congruence| |]; simpl;
    repeat split; try reflexivity; discriminate.
Qed.

(** X20. When the write of the configuration succeeds, [save_configuration]
    answers with success whatever becomes of the build it triggers, and the
    persisted configuration is the one submitted. *)
Theorem save_configuration_success (e : env) (url psw : str) (w : world) :
  url <> [] -> psw <> [] -> write e CONFIG_FILE = WriteOk ->
  fst (save_configuration e url psw w) = Body true
  /\ load_config (fs (snd (save_configuration e url psw w)))
     = {| mediaflow_url := url; mediaflow_psw := psw |}.
Proof.
  intros Hu Hp Hw. unfold save_configuration, save_config.
  apply truthy_true in Hu, Hp. rewrite Hu, Hp, Hw. simpl.
  split; [reflexivity|].
  unfold load_config. rewrite generate_channel_list_keeps_config. reflexivity.
Qed.

(** X21. A build that fails does not refresh what is served: when
    [manifest_with_params] stores a new configuration but the write of the
    snapshot fails, a populated cache is kept, and the next
    [get_all_channels] still returns the list cached under the previous
    configuration. *)
Theorem manifest_with_params_stale_cache (e : env) (url psw : str) (w : world)
    (cached : list meta) :
  channel_cache w = Some cached ->
  write e CHANNELS_FILE <> WriteOk ->
  fst (get_all_channels (snd (manifest_with_params e url psw w))) = cached.
Proof.
  intros C Hw. unfold manifest_with_params.
  destruct (save_config (write e CONFIG_FILE) (fs w) url psw) as [ok d'].
  simpl. unfold get_all_channels.
  rewrite (generate_channel_list_failed_keeps_cache e _ Hw). simpl.
  rewrite C. reflexivity.
Qed.

(* ------------------------------------------------------------------ *)
(** ** Further properties of [m3u8_vavoo.py] *)

Lemma dropwhile_app (A : Type) (p : A -> bool) (l m : list A) :
  dropwhile p (l ++ m)
  = if forallb p l then dropwhile p m else dropwhile p l ++ m.
Proof.
  induction l as [|x l IH]; simpl; [reflexivity|].
  destruct (p x); simpl; [exact IH | reflexivity].
Qed.

Lemma dropwhile_all (A : Type) (p : A -> bool) (l : list A) :
  forallb p l = true -> dropwhile p l = [].
Proof.
  induction l as [|x l IH]; simpl; [reflexivity|].
  destruct (p x); simpl; [exact IH | discriminate].
Qed.

Lemma dropwhile_idem (A : Type) (p : A -> bool) (l : list A) :
  dropwhile p (dropwhile p l) = dropwhile p l.
Proof.
  induction l as [|x l IH]; simpl; [reflexivity|].
  destruct (p x) eqn:E; [exact IH | simpl; rewrite E; reflexivity].
Qed.

Lemma forallb_rev (A : Type) (p : A -> bool) (l : list A) :
  forallb p (rev l) = forallb p l.
Proof.
  induction l as [|x l IH]; simpl; [reflexivity|].
  rewrite forallb_app, IH. simpl. rewrite andb_true_r. apply andb_comm.
Qed.

Lemma rstrip_cons (a : char) (s : str) :
  rstrip (a :: s)
  = if forallb is_space s then (if is_space a then [] else [a])
    else a :: rstrip s.
Proof.
  unfold rstrip. simpl. rewrite dropwhile_app, forallb_rev.
  destruct (forallb is_space s).
  - simpl. destruct (is_space a); reflexivity.
  - rewrite rev_app_distr. reflexivity.
Qed.

Lemma lstrip_rstrip (s : str) : lstrip (rstrip s) = rstrip (lstrip s).
Proof.
  induction s as [|a s IH]; [reflexivity|].
  rewrite rstrip_cons. unfold lstrip at 2. simpl.
  destruct (is_space a) eqn:A.
  - destruct (forallb is_space s) eqn:F.
    + rewrite (dropwhile_all _ is_space s F). reflexivity.
    + unfold lstrip at 1. simpl. rewrite A. exact IH.
  - rewrite rstrip_cons.
    destruct (forallb is_space s); unfold lstrip; simpl; rewrite A; reflexivity.
Qed.

Lemma strip_rstrip (s : str) : strip (rstrip s) = strip s.
Proof.
  change (strip (rstrip s)) with (rstrip (lstrip (rstrip s))).
  change (strip s) with (rstrip (lstrip s)).
  rewrite lstrip_rstrip. unfold rstrip at 1 2.
  rewrite rev_involutive, dropwhile_idem. reflexivity.
Qed.

Lemma sub_ws_dot_cs_suffix (base : str) (w c : char) :
  is_space w = true -> is_cs c = true ->
  sub_ws_dot_cs (base ++ [w; 46%N; c]) = rstrip base.
Proof.
  intros Hw Hc. unfold sub_ws_dot_cs, dollar_split.
  rewrite rev_app_distr. simpl rev. simpl app.
  assert (C : (c = 99 \/ c = 67 \/ c = 115 \/ c = 83 \/ c = 383)%N).
  { unfold is_cs in Hc. rewrite !orb_true_iff, !N.eqb_eq in Hc.
    destruct Hc as [[[[H|H]|H]|H]|H];
      [left | right; left | right; right; left | right; right; right; left
       | right; right; right; right]; exact H. }
  destruct C as [->|[->|[->|[->| ->]]]]; cbv iota beta; rewrite Hw; simpl;
    apply app_nil_r.
Qed.

(** X22. The suffix made of whitespace, a dot and the letter c or s, in
    either case, does not count in a normalized name: a name with this
    suffix normalizes to the lower-cased, stripped text in front of it. *)
Theorem normalize_channel_name_suffix (base : str) (w c : char) :
  is_space w = true -> is_cs c = true ->
  normalize_channel_name (base ++ [w; 46%N; c]) = lower (strip base).
Proof.
  intros Hw Hc. unfold normalize_channel_name.
  rewrite (sub_ws_dot_cs_suffix base w c Hw Hc), strip_rstrip. reflexivity.
Qed.

(** X23. The placeholder URL never holds a space character: every space of
    the cleaned name has become a plus sign. *)
Theorem placeholder_url_no_space (channel_name : str) :
  ~ In 32%N (placeholder_url channel_name).
Proof.
  unfold placeholder_url, replace_space_plus. intros H.
  apply in_app_or in H as [H|H].
  - assert (A : existsb (N.eqb 32) (py "https://placehold.co/400x400?text=") = false)
      by (vm_compute; reflexivity).
    assert (B : existsb (N.eqb 32) (py "https://placehold.co/400x400?text=") = true).
    { apply existsb_exists. exists 32%N. split; [exact H | reflexivity]. }
    congruence.
  - apply in_app_or in H as [H|H].
    + apply in_map_iff in H as (x & E & _).
      destruct (N.eqb x 32) eqn:X; [discriminate E|].
      subst x. discriminate X.
    + simpl in H. repeat (destruct H as [H|H]; [discriminate H|]). destruct H.
Qed.

Lemma logo_scan_sound (n : str) (channel_logos : dict str) :
  match logo_scan n channel_logos with
  | Some url => exists key, In (key, url) channel_logos /\ logo_key_matches n key
  | None => forall key url, In (key, url) channel_logos -> ~ logo_key_matches n key
  end.
Proof.
  induction channel_logos as [|[k u] rest IH]; simpl.
  - intros key url [].
  - destruct (logo_key_hit n k) eqn:E.
    + exists k. split; [left; reflexivity | apply logo_key_hit_matches; exact E].
    + destruct (logo_scan n rest) as [url|].
      * destruct IH as (key & Hin & Hm). exists key. split; [right|]; assumption.
      * intros key url [X|X].
        -- injection X as <- _. intros M. apply logo_key_hit_matches in M.
           congruence.
        -- exact (IH key url X).
Qed.

(** X24. [get_logo_url] makes up no URL of its own except the placeholder:
    its result is the URL stored under a key that matches the normalized
    name, or it is the placeholder and then no key of the map matches. *)
Theorem get_logo_url_sound (channel_name : str) (channel_logos : dict str) :
  (exists key,
      In (key, get_logo_url channel_name channel_logos) channel_logos
      /\ logo_key_matches (normalize_channel_name channel_name) key)
  \/ (get_logo_url channel_name channel_logos = placeholder_url channel_name
      /\ forall key url, In (key, url) channel_logos ->
           ~ logo_key_matches (normalize_channel_name channel_name) key).
Proof.
  unfold get_logo_url.
  pose proof (logo_scan_sound (normalize_channel_name channel_name) channel_logos) as S.
  destruct (logo_scan _ channel_logos) as [url|]; [left | right; split]; auto.
Qed.

Lemma str_in_nil (s : str) : str_in [] s = true.
Proof. destruct s; reflexivity. Qed.

(** X25. A key that normalizes to the empty string matches every channel
    name: with such a key in the map the placeholder is never used, and every
    channel gets a URL stored in the map. *)
Theorem get_logo_url_empty_key (channel_name : str) (channel_logos : dict str)
    (key url : str) :
  In (key, url) channel_logos -> normalize_channel_name key = [] ->
  In (get_logo_url channel_name channel_logos) (map snd channel_logos).
Proof.
  intros Hin Hk. unfold get_logo_url.
  pose proof (logo_scan_sound (normalize_channel_name channel_name) channel_logos) as S.
  destruct (logo_scan _ channel_logos) as [u|].
  - destruct S as (k & H & _). apply in_map_iff. exists (k, u).
    split; [reflexivity | exact H].
  - exfalso. apply (S key url Hin). right; right.
    rewrite Hk. apply str_in_nil.
Qed.

Lemma m3u_entry_excluded (it : item) (channel_filters channel_remove : list str)
    (category_keywords : dict (list str)) (channel_logos : dict str) :
  name_excluded it channel_filters channel_remove ->
  m3u_entry it channel_filters channel_remove category_keywords channel_logos = [].
Proof.
  intros H. unfold m3u_entry. unfold name_excluded in H. cbv zeta in H.
  destruct H as [H|[Hf H]].
  - rewrite H. reflexivity.
  - destruct (any_word_in channel_remove _); [reflexivity|].
    apply truthy_true in Hf. rewrite Hf, H. reflexivity.
Qed.

(** X26. An item is left out because of its name alone when a remove word
    occurs in it, whatever the filters are, or when there are filters and
    none occurs in it: nothing is written for it, and the file is the header
    followed by what the other items give, in order. *)
Theorem generate_m3u_skips_excluded (before after : list item) (it : item)
    (signature : str) (channel_filters channel_remove : list str)
    (category_keywords : dict (list str)) (channel_logos : dict str) :
  name_excluded it channel_filters channel_remove ->
  m3u_entry it channel_filters channel_remove category_keywords channel_logos = []
  /\ generate_m3u (before ++ it :: after) signature channel_filters
       channel_remove category_keywords channel_logos
     = Some (m3u_header
             ++ List.concat (map (fun x => m3u_entry x channel_filters channel_remove
                                        category_keywords channel_logos) before)
             ++ List.concat (map (fun x => m3u_entry x channel_filters channel_remove
                                        category_keywords channel_logos) after)).
Proof.
  intros H.
  pose proof (m3u_entry_excluded it channel_filters channel_remove
                category_keywords channel_logos H) as E.
  split; [exact E|]. unfold generate_m3u.
  replace (truthy (before ++ it :: after)) with true
    by (destruct before; reflexivity).
  simpl. rewrite m3u_loop_concat, map_app, concat_app. simpl.
  rewrite E. reflexivity.
Qed.

Lemma split_ws_from_trailing (t : str) :
  forallb is_space t = true ->
  forall s cur, split_ws_from cur (s ++ t) = split_ws_from cur s.
Proof.
  intros Ht.
  assert (T : forall cur, split_ws_from cur t = split_ws_from cur []).
  { induction t as [|a t IH]; intros cur; [reflexivity|].
    simpl in Ht. apply andb_true_iff in Ht as [Ha Ht].
    simpl. rewrite Ha. destruct cur; rewrite (IH Ht); reflexivity. }
  induction s as [|c s IH]; intros cur; simpl; [apply T|].
  destruct (is_space c); [destruct cur|]; rewrite IH; reflexivity.
Qed.

Lemma dropwhile_decomp (A : Type) (p : A -> bool) (l : list A) :
  exists t, l = t ++ dropwhile p l /\ forallb p t = true.
Proof.
  induction l as [|x l IH]; simpl; [exists []; auto|].
  destruct (p x) eqn:E.
  - destruct IH as (t & Ht & Hp). exists (x :: t). simpl.
    rewrite E, Hp, <- Ht. auto.
  - exists []. auto.
Qed.

Lemma split_ws_rstrip (s : str) : split_ws (rstrip s) = split_ws s.
Proof.
  unfold rstrip, split_ws.
  destruct (dropwhile_decomp _ is_space (rev s)) as (t & Ht & Hp).
  assert (E : s = rev (dropwhile is_space (rev s)) ++ rev t).
  { rewrite <- rev_app_distr, <- Ht, rev_involutive. reflexivity. }
  rewrite E at 2. symmetry. apply split_ws_from_trailing.
  rewrite forallb_rev. exact Hp.
Qed.

Lemma split_ws_lstrip (s : str) : split_ws (lstrip s) = split_ws s.
Proof.
  unfold lstrip, split_ws. induction s as [|a s IH]; simpl; [reflexivity|].
  destruct (is_space a) eqn:E; [exact IH | simpl; rewrite E; reflexivity].
Qed.

Lemma split_ws_strip (s : str) : split_ws (strip s) = split_ws s.
Proof.
  change (strip s) with (rstrip (lstrip s)).
  rewrite split_ws_rstrip. apply split_ws_lstrip.
Qed.

Lemma sub_dot_cs_suffix (base : str) (c : char) :
  is_cs c = true -> sub_dot_cs (base ++ [46%N; c]) = base.
Proof.
  intros Hc. unfold sub_dot_cs, dollar_split.
  rewrite rev_app_distr. simpl rev. simpl app.
  assert (C : (c = 99 \/ c = 67 \/ c = 115 \/ c = 83 \/ c = 383)%N).
  { unfold is_cs in Hc. rewrite !orb_true_iff, !N.eqb_eq in Hc.
    destruct Hc as [[[[H|H]|H]|H]|H];
      [left | right; left | right; right; left | right; right; right; left
       | right; right; right; right]; exact H. }
  destruct C as [->|[->|[->|[->| ->]]]]; cbv iota beta; simpl;
    rewrite rev_involutive; apply app_nil_r.
Qed.

(** X27. The id made by [sanitize_tvg_id] depends on the words of the name
    only: it is the capitalized words of the name after the substitution,
    joined by single spaces, so leading, trailing and repeated whitespace is
    lost; and a final dot followed by c or s, in either case, is dropped
    even when no space stands in front of it. *)
Theorem sanitize_tvg_id_words (channel_name : str) :
  sanitize_tvg_id channel_name
  = join (py " ") (map capitalize (split_ws (sub_dot_cs channel_name)))
  /\ (forall base c, is_cs c = true -> channel_name = base ++ [46%N; c] ->
        sanitize_tvg_id channel_name
        = join (py " ") (map capitalize (split_ws base))).
Proof.
  unfold sanitize_tvg_id. rewrite split_ws_strip. split; [reflexivity|].
  intros base c Hc ->.
  apply (f_equal (fun x => join (py " ") (map capitalize (split_ws x)))).
  exact (sub_dot_cs_suffix base c Hc).
Qed.

(** X28. An item is written to the playlist exactly when it has a
    non-empty URL and its name is not excluded: [m3u_entry] is empty in the
    other cases and in these only. *)
Theorem m3u_entry_empty_iff (it : item) (channel_filters channel_remove : list str)
    (category_keywords : dict (list str)) (channel_logos : dict str) :
  m3u_entry it channel_filters channel_remove category_keywords channel_logos = []
  <-> name_excluded it channel_filters channel_remove \/ no_url it.
Proof.
  split.
  - unfold m3u_entry, name_excluded, no_url. cbv zeta.
    destruct (any_word_in channel_remove _) eqn:R; [left; left; reflexivity|].
    destruct (truthy channel_filters) eqn:F; simpl.
    + destruct (any_word_in channel_filters _) eqn:A; simpl.
      * destruct (item_url it) as [[|x u]|]; simpl; auto; discriminate.
      * intros _. left; right. split; [apply truthy_true; exact F | reflexivity].
    + destruct (item_url it) as [[|x u]|]; simpl; auto; discriminate.
  - intros [H|H].
    + apply m3u_entry_excluded. exact H.
    + apply m3u_entry_no_url. exact H.
Qed.

Lemma find_channel_none (all_channels : list meta) (id : str) :
  (forall m, In m all_channels -> m_id m <> id) ->
  find_channel all_channels id = None.
Proof.
  unfold find_channel. induction all_channels as [|x l IH]; intros H; [reflexivity|].
  simpl. destruct (str_eqb (m_id x) id) eqn:E.
  - apply str_eqb_eq in E. destruct (H x (or_introl eq_refl) E).
  - apply IH. intros m Hm. apply H. right; exact Hm.
Qed.

(** X29. An id that no channel carries is not an error: the meta route
    answers with an empty object and the stream route with no stream. *)
Theorem routes_unknown_id (w : world) (type id : str) :
  (forall m, In m (fst (get_all_channels w)) -> m_id m <> id) ->
  fst (meta_route w type id) = None /\ fst (stream_route w type id) = [].
Proof.
  intros H. unfold meta_route, stream_route.
  destruct (negb _ || negb _); [split; reflexivity|].
  destruct (get_all_channels w) as [all_channels w']. cbn [fst] in H.
  rewrite (find_channel_none all_channels id H). split; reflexivity.
Qed.

End Pipeline.

(* ------------------------------------------------------------------ *)
(** ** The properties on concrete inputs *)

Lemma clean_channel_name_marker_witness :
  clean_channel_name (py "Sky Sport .I") = py "Sky Sport"
  /\ ascii_lower (clean_channel_name (py "Sky Sport .I")) = ascii_lower (py "Sky Sport")
  /\ clean_channel_name (py "Rai") = py "Rai".
Proof.
  destruct (clean_channel_name_marker ascii_lower (py "Sky Sport .I")) as [H _].
  destruct (H (py "Sky Sport")) as [E1 E2].
  { exists 32%N, 73%N. repeat split; try reflexivity. discriminate. }
  destruct (clean_channel_name_marker ascii_lower (py "Rai")) as [_ H2].
  refine (conj E1 (conj E2 (H2 _))).
  intros base (w & l & E & Hb & _).
  destruct base as [|a [|b [|c [|d base]]]]; discriminate E.
Defined.

(** The hypothesis on the mapping is used: [assign_genre] itself does not
    check what it finds, so a document that holds a value outside the set,
    which is not a genre mapping of the data model, gives that value
    back. *)
Lemma assign_genre_returns_stored_value :
  ~ In (assign_genre ascii_lower (py "Foo") [(py "foo", py "bogus")])
       AVAILABLE_GENRES.
Proof. apply list_in_false. vm_compute. reflexivity. Qed.

Lemma assign_genre_available_witness :
  genres_valid [(py "rai 1", py "news")]
  /\ In (assign_genre ascii_lower (py "Rai 1 .I") [(py "rai 1", py "news")])
        AVAILABLE_GENRES
  /\ assign_genre ascii_lower (py "Rai 1 .I") [(py "rai 1", py "news")] = py "news"
  /\ In (assign_genre ascii_lower (py "Sky Sport .I") [(py "rai 1", py "news")])
        AVAILABLE_GENRES.
Proof.
  assert (V : genres_valid [(py "rai 1", py "news")]).
  { intros k v [E|[]]. injection E as _ <-. apply list_in_In. reflexivity. }
  destruct (assign_genre_available ascii_lower (py "Rai 1 .I")
              [(py "rai 1", py "news")] V) as [H1 H2].
  destruct (assign_genre_available ascii_lower (py "Sky Sport .I")
              [(py "rai 1", py "news")] V) as [H3 _].
  refine (conj V (conj H1 (conj (proj1 (H2 _ _)) H3))). reflexivity.
Defined.

(** C2 fails as stated: with the hint "bogus" the entry "Sky Sport .I" is
    recorded as "general", while without a hint it is recorded as
    "sports". *)
Lemma invalid_hint_not_ignored :
  map ch_genre
    (load_json_file
       (f_channels (fs (snd (generate_channel_list ascii_lower all_writes_ok
          (configured Missing (Content [sky_sport (Some (py "bogus"))]))))))
       [])
  = [py "general"]
  /\ map ch_genre
       (load_json_file
          (f_channels (fs (snd (generate_channel_list ascii_lower all_writes_ok
             (configured Missing (Content [sky_sport None]))))))
          [])
     = [py "sports"].
Proof. split; vm_compute; reflexivity. Qed.

Lemma invalid_hint_gets_general_witness :
  exists snapshot r,
    f_channels (fs (snd (generate_channel_list ascii_lower all_writes_ok
       (configured Missing (Content [sky_sport (Some (py "bogus"))])))))
    = Content snapshot
    /\ nth_error snapshot 0 = Some r
    /\ ch_name r = raw_name (sky_sport (Some (py "bogus")))
    /\ ch_genre r = py "general".
Proof.
  apply (invalid_hint_gets_general ascii_lower all_writes_ok
           (configured Missing (Content [sky_sport (Some (py "bogus"))]))
           (snd (generate_channel_list ascii_lower all_writes_ok
                   (configured Missing (Content [sky_sport (Some (py "bogus"))]))))
           [sky_sport (Some (py "bogus"))] 0 (sky_sport (Some (py "bogus")))
           (py "bogus")).
  - vm_compute. reflexivity.
  - reflexivity.
  - reflexivity.
  - reflexivity.
  - discriminate.
  - apply list_in_false. reflexivity.
Defined.

(** C3 fails as stated: the default bucket is "ALTRI", not "OTHER". *)
Lemma get_category_default_is_not_other :
  get_category ascii_lower (py "Unknown Channel") sport_keywords <> py "OTHER".
Proof. vm_compute. discriminate. Qed.

Lemma get_category_first_match_witness :
  get_category ascii_lower (py "Sky Sport .I") sport_keywords = py "SPORT"
  /\ get_category ascii_lower (py "Unknown Channel") sport_keywords = py "ALTRI".
Proof.
  split.
  - destruct (get_category_first_match ascii_lower (py "Sky Sport .I") sport_keywords)
      as [H _].
    apply (H [] (py "SPORT") [py "sky sport"] []).
    + reflexivity.
    + intros c' kws' [].
    + reflexivity.
  - destruct (get_category_first_match ascii_lower (py "Unknown Channel") sport_keywords)
      as [_ H].
    apply H. intros c' kws' [E|[]]. injection E as _ <-. reflexivity.
Defined.

(** C4 on a concrete catalog. After a build from the built-in sample, the
    query for the genre "sports" with the search string "rai" returns
    "Rai 1", whose genre is "general"; the same query without a search
    string returns "Sky Sport" only. *)
Theorem catalog_search_drops_genre_filter :
  map (fun m => (m_name m, m_genres m))
    (fst (catalog ascii_lower ascii_quote_plus
            (snd (generate_channel_list ascii_lower all_writes_ok
                    (configured Missing Missing)))
            (py "tv") (py "mediaflow-sports") (Some (py "rai"))))
  = [ (py "Rai 1", [py "general"]) ]
  /\ map (fun m => (m_name m, m_genres m))
       (fst (catalog ascii_lower ascii_quote_plus
               (snd (generate_channel_list ascii_lower all_writes_ok
                       (configured Missing Missing)))
               (py "tv") (py "mediaflow-sports") None))
     = [ (py "Sky Sport", [py "sports"]) ].
Proof. split; vm_compute; reflexivity. Qed.

(** C5 fails as stated: the key "sky sport" normalizes equal to the query
    "Sky Sport", yet the URL of the earlier key "sky", which only occurs in
    the query, is returned. *)
Lemma get_logo_url_earlier_partial_match_wins :
  normalize_channel_name ascii_lower (py "sky sport")
  = normalize_channel_name ascii_lower (py "Sky Sport")
  /\ get_logo_url ascii_lower (py "Sky Sport") two_logos
     = py "https://logos.example/sky.png"
  /\ get_logo_url ascii_lower (py "Sky Sport") two_logos
     <> py "https://logos.example/sky-sport.png".
Proof.
  split; [vm_compute; reflexivity|].
  split; [vm_compute; reflexivity | vm_compute; discriminate].
Qed.

Lemma get_logo_url_first_hit_witness :
  get_logo_url ascii_lower (py "Sky Sport .c")
    ((py "rai 1", py "https://logos.example/rai1.png") :: two_logos)
  = py "https://logos.example/sky.png"
  /\ get_logo_url ascii_lower (py "Canale 5 .s")
       ((py "rai 1", py "https://logos.example/rai1.png") :: two_logos)
     = placeholder_url (py "Canale 5 .s")
  /\ placeholder_url (py "Canale 5 .s") <> [].
Proof.
  split.
  - destruct (get_logo_url_first_hit ascii_lower (py "Sky Sport .c")
                ((py "rai 1", py "https://logos.example/rai1.png") :: two_logos))
      as [H _].
    apply (H [(py "rai 1", py "https://logos.example/rai1.png")] (py "sky")
             (py "https://logos.example/sky.png")
             [(py "sky sport", py "https://logos.example/sky-sport.png")]).
    + reflexivity.
    + intros k' u' [E|[]]. injection E as <- _.
      intros [M|[M|M]]; vm_compute in M; discriminate M.
    + right; right. reflexivity.
  - destruct (get_logo_url_first_hit ascii_lower (py "Canale 5 .s")
                ((py "rai 1", py "https://logos.example/rai1.png") :: two_logos))
      as [_ H].
    apply H. intros k' u' [E|[E|[E|[]]]]; injection E as <- _;
      intros [M|[M|M]]; vm_compute in M; discriminate M.
Defined.

(** C6 fails as stated: the write of the snapshot fails and the build
    returns [False], but the genre file, which held one entry, now holds a
    second one. *)
Lemma genre_file_changes_when_snapshot_write_fails :
  fst (generate_channel_list ascii_lower snapshot_write_fails
         (configured (Content [(py "rai 1", py "news")])
                     (Content [sky_sport None])))
  = false
  /\ f_genres (fs (snd (generate_channel_list ascii_lower snapshot_write_fails
                          (configured (Content [(py "rai 1", py "news")])
                                      (Content [sky_sport None])))))
     = Content [(py "rai 1", py "news"); (py "Sky Sport", py "sports")]
  /\ f_genres (fs (snd (generate_channel_list ascii_lower snapshot_write_fails
                          (configured (Content [(py "rai 1", py "news")])
                                      (Content [sky_sport None])))))
     <> f_genres (fs (configured (Content [(py "rai 1", py "news")])
                                 (Content [sky_sport None]))).
Proof.
  split; [vm_compute; reflexivity|].
  split; [vm_compute; reflexivity | vm_compute; discriminate].
Qed.

Lemma snapshot_write_failure_witness :
  fst (generate_channel_list ascii_lower snapshot_write_fails
         (configured (Content [(py "rai 1", py "news")])
                     (Content [sky_sport None])))
  = false
  /\ channel_cache (snd (generate_channel_list ascii_lower snapshot_write_fails
                           (configured (Content [(py "rai 1", py "news")])
                                       (Content [sky_sport None]))))
     = None
  /\ f_channels (fs (snd (generate_channel_list ascii_lower snapshot_write_fails
                            (configured (Content [(py "rai 1", py "news")])
                                        (Content [sky_sport None])))))
     = Missing.
Proof.
  destruct (snapshot_write_failure ascii_lower snapshot_write_fails
              (configured (Content [(py "rai 1", py "news")])
                          (Content [sky_sport None])))
    as (H1 & H2 & _ & _ & H5 & _).
  - discriminate.
  - discriminate.
  - discriminate.
  - refine (conj H1 (conj H2 (H5 _))). reflexivity.
Defined.

Lemma cache_get_stable_witness :
  fst (get_all_channels ascii_quote_plus
         (snd (get_all_channels ascii_quote_plus
                 (snd (generate_channel_list ascii_lower all_writes_ok
                         (configured Missing Missing))))))
  = fst (get_all_channels ascii_quote_plus
           (snd (generate_channel_list ascii_lower all_writes_ok
                   (configured Missing Missing))))
  /\ map m_name
       (fst (get_all_channels ascii_quote_plus
               (snd (generate_channel_list ascii_lower all_writes_ok
                       (configured Missing Missing)))))
     = [py "Rai 1"; py "Canale 5"; py "Sky Sport"; py "Discovery Channel"].
Proof.
  destruct (cache_get_stable ascii_lower ascii_quote_plus
              (snd (generate_channel_list ascii_lower all_writes_ok
                      (configured Missing Missing)))) as [H1 _].
  destruct (cache_get_stable ascii_lower ascii_quote_plus
              (configured Missing Missing)) as [_ H2].
  destruct (H2 all_writes_ok
              (snd (generate_channel_list ascii_lower all_writes_ok
                      (configured Missing Missing))))
    as (snapshot & Hs & _ & Hg).
  { vm_compute. reflexivity. }
  split.
  - exact (H1 _ eq_refl eq_refl).
  - rewrite Hg. vm_compute in Hs. injection Hs as <-. vm_compute. reflexivity.
Defined.

Lemma get_channel_list_pages_witness :
  get_channel_list
    [ Answer (Some [item_of (py "Rai 1") (py "u1"); item_of (py "Rai 2") (py "u2")]);
      Answer (Some [item_of (py "Rai 3") (py "u3")]);
      RequestFails;
      Answer (Some [item_of (py "Rai 4") (py "u4")]) ]
  = Some ([0; 2; 3],
          [ item_of (py "Rai 1") (py "u1"); item_of (py "Rai 2") (py "u2");
            item_of (py "Rai 3") (py "u3") ]).
Proof.
  destruct (get_channel_list_pages
              [ [item_of (py "Rai 1") (py "u1"); item_of (py "Rai 2") (py "u2")];
                [item_of (py "Rai 3") (py "u3")] ]
              RequestFails
              [ Answer (Some [item_of (py "Rai 4") (py "u4")]) ]) as (H & _ & _).
  - repeat constructor; discriminate.
  - left; reflexivity.
  - exact H.
Defined.

Lemma generate_m3u_skips_no_url_witness :
  generate_m3u ascii_lower ascii_capitalize
    [ item_of (py "Rai 1 .c") (py "https://x/rai1");
      {| item_name := Some (py "Rai 2"); item_url := None |};
      item_of (py "Sky Sport .s") (py "https://x/sky") ]
    (py "sig") [] [] sport_keywords two_logos
  = generate_m3u ascii_lower ascii_capitalize
      [ item_of (py "Rai 1 .c") (py "https://x/rai1");
        item_of (py "Sky Sport .s") (py "https://x/sky") ]
      (py "sig") [] [] sport_keywords two_logos.
Proof.
  destruct (generate_m3u_skips_no_url ascii_lower ascii_capitalize
              [item_of (py "Rai 1 .c") (py "https://x/rai1")]
              [item_of (py "Sky Sport .s") (py "https://x/sky")]
              {| item_name := Some (py "Rai 2"); item_url := None |}
              (py "sig") [] [] sport_keywords two_logos) as [_ H].
  - left; reflexivity.
  - simpl app in H. rewrite H. vm_compute. reflexivity.
Defined.

(* ------------------------------------------------------------------ *)
(** ** The further properties on concrete inputs *)

Lemma clean_channel_name_prefix_witness :
  clean_channel_name (py "Sky Sport .I") <> [].
Proof.
  apply (proj2 (clean_channel_name_prefix (py "Sky Sport .I"))). discriminate.
Defined.

Lemma generate_channel_list_unconfigured_witness :
  generate_channel_list ascii_lower all_writes_ok unconfigured
  = (false, unconfigured).
Proof.
  apply (generate_channel_list_unconfigured ascii_lower all_writes_ok unconfigured).
  left. reflexivity.
Defined.

Lemma snapshot_follows_sample_witness :
  exists snapshot,
    f_channels (fs (snd (generate_channel_list ascii_lower all_writes_ok
       (configured Missing
          (Content [sky_sport None; sky_sport (Some (py "news"))])))))
    = Content snapshot
    /\ map ch_name snapshot = [py "Sky Sport .I"; py "Sky Sport .I"]
    /\ map ch_url snapshot = [py "https://x/sky.m3u8"; py "https://x/sky.m3u8"].
Proof.
  apply (snapshot_follows_sample ascii_lower all_writes_ok
           (configured Missing
              (Content [sky_sport None; sky_sport (Some (py "news"))]))
           (snd (generate_channel_list ascii_lower all_writes_ok
                   (configured Missing
                      (Content [sky_sport None; sky_sport (Some (py "news"))]))))
           [sky_sport None; sky_sport (Some (py "news"))]).
  - vm_compute. reflexivity.
  - reflexivity.
Defined.

Lemma snapshot_genres_available_witness :
  exists snapshot,
    f_channels (fs (snd (generate_channel_list ascii_lower all_writes_ok
       (configured (Content [(py "sky sport", py "bogus")])
          (Content [sky_sport None])))))
    = Content snapshot
    /\ Forall (fun r => In (ch_genre r) AVAILABLE_GENRES) snapshot.
Proof.
  apply (snapshot_genres_available ascii_lower all_writes_ok
           (configured (Content [(py "sky sport", py "bogus")])
              (Content [sky_sport None]))).
  vm_compute. reflexivity.
Defined.

Lemma valid_hint_is_recorded_witness :
  exists snapshot r,
    f_channels (fs (snd (generate_channel_list ascii_lower all_writes_ok
       (configured (Content [(py "sky sport", py "movies")])
          (Content [sky_sport (Some (py "news"))])))))
    = Content snapshot
    /\ nth_error snapshot 0 = Some r
    /\ ch_name r = py "Sky Sport .I"
    /\ ch_genre r = py "news".
Proof.
  apply (valid_hint_is_recorded ascii_lower all_writes_ok
           (configured (Content [(py "sky sport", py "movies")])
              (Content [sky_sport (Some (py "news"))]))
           (snd (generate_channel_list ascii_lower all_writes_ok
                   (configured (Content [(py "sky sport", py "movies")])
                      (Content [sky_sport (Some (py "news"))]))))
           [sky_sport (Some (py "news"))] 0 (sky_sport (Some (py "news")))
           (py "news")).
  - vm_compute. reflexivity.
  - reflexivity.
  - reflexivity.
  - reflexivity.
  - apply list_in_In. reflexivity.
Defined.

Lemma genre_mapping_first_write_wins_witness :
  exists genre_mapping,
    f_genres (fs (snd (generate_channel_list ascii_lower all_writes_ok
       (configured (Content [(py "Sky Sport", py "news")])
          (Content [sky_sport None])))))
    = Content genre_mapping
    /\ dict_get genre_mapping (py "Sky Sport") = Some (py "news").
Proof.
  apply (genre_mapping_first_write_wins ascii_lower all_writes_ok
           (configured (Content [(py "Sky Sport", py "news")])
              (Content [sky_sport None]))).
  - discriminate.
  - discriminate.
  - reflexivity.
  - reflexivity.
Defined.

Lemma genre_mapping_covers_sample_witness :
  exists genre_mapping,
    f_genres (fs (snd (generate_channel_list ascii_lower all_writes_ok
       (configured Missing (Content [sky_sport None])))))
    = Content genre_mapping
    /\ dict_mem genre_mapping (py "Sky Sport") = true.
Proof.
  apply (genre_mapping_covers_sample ascii_lower all_writes_ok
           (configured Missing (Content [sky_sport None]))
           [sky_sport None] (sky_sport None)).
  - discriminate.
  - discriminate.
  - reflexivity.
  - reflexivity.
  - left. reflexivity.
Defined.

Lemma generate_channel_list_keeps_genres_valid_witness :
  genres_valid
    (load_json_file
       (f_genres (fs (snd (generate_channel_list ascii_lower all_writes_ok
          (configured (Content [(py "rai 1", py "news")])
             (Content [sky_sport (Some (py "bogus"))]))))))
       []).
Proof.
  apply (generate_channel_list_keeps_genres_valid ascii_lower all_writes_ok
           (configured (Content [(py "rai 1", py "news")])
              (Content [sky_sport (Some (py "bogus"))]))).
  intros k v [E|[]]. injection E as _ <-. apply list_in_In. reflexivity.
Defined.

Lemma recorded_genre_not_looked_up_witness :
  assign_genre ascii_lower (py "Rai 1 .I")
    (dict_set [] (clean_channel_name (py "Rai 1 .I")) (py "news"))
  = assign_genre ascii_lower (py "Rai 1 .I") [].
Proof.
  apply (recorded_genre_not_looked_up ascii_lower (py "Rai 1 .I") (py "news") []).
  intros E. vm_compute in E. discriminate E.
Defined.

Lemma get_all_channels_reads_only_witness :
  channel_cache (snd (get_all_channels ascii_quote_plus unconfigured)) = None.
Proof.
  apply (proj2 (get_all_channels_reads_only ascii_quote_plus unconfigured));
    reflexivity.
Defined.

Lemma to_meta_ignores_stored_icon_witness :
  to_meta ascii_quote_plus (fs unconfigured)
    {| ch_id := py "rai1-1700000000-1000"; ch_name := py "Rai 1 .I";
       ch_url := py "https://x/rai1.m3u8"; ch_genre := py "general";
       ch_icon := py "https://logos.example/old.png" |}
    (py "mf.example") (py "secret")
  = to_meta ascii_quote_plus (fs unconfigured)
      {| ch_id := py "rai1-1700000000-1000"; ch_name := py "Rai 1 .I";
         ch_url := py "https://x/rai1.m3u8"; ch_genre := py "general";
         ch_icon := py "https://logos.example/new.png" |}
      (py "mf.example") (py "secret").
Proof.
  apply (to_meta_ignores_stored_icon ascii_quote_plus); reflexivity.
Defined.

Lemma to_meta_stream_url_witness :
  si_url (m_streamInfo
            (to_meta ascii_quote_plus (fs unconfigured)
               {| ch_id := py "skysport-1700000000-1000";
                  ch_name := py "Sky Sport .I";
                  ch_url := py "https://x/sky.m3u8"; ch_genre := py "sports";
                  ch_icon := py "https://dl.strem.io/addon-logo.png" |}
               (py "mf.example") (py "secret")))
  = py "https://mf.example/proxy/hls/manifest.m3u8?api_password=secret&d=https%3A%2F%2Fx%2Fsky.m3u8&h_user-agent=Mozilla%2F5.0+%28Windows+NT+10.0%3B+Win64%3B+x64%29+AppleWebKit%2F537.36+%28KHTML%2C+like+Gecko%29+Chrome%2F133.0.0.0+Safari%2F537.36&h_referer=https%3A%2F%2Fvavoo.to%2F&h_origin=https%3A%2F%2Fvavoo.to".
Proof.
  rewrite (to_meta_stream_url ascii_quote_plus).
  - vm_compute. reflexivity.
  - unfold keeps_param_names. repeat (split; [reflexivity|]). reflexivity.
Defined.

Lemma routes_reject_foreign_ids_witness :
  catalog ascii_lower ascii_quote_plus unconfigured (py "movie")
    (py "mediaflow-sports") None
  = ([], unconfigured)
  /\ meta_route ascii_quote_plus unconfigured (py "tv") (py "tt0111161")
     = (None, unconfigured)
  /\ stream_route ascii_quote_plus unconfigured (py "tv") (py "tt0111161")
     = ([], unconfigured).
Proof.
  destruct (routes_reject_foreign_ids ascii_lower ascii_quote_plus unconfigured
              (py "movie") (py "mediaflow-sports") None) as (H1 & _ & _).
  { left. discriminate. }
  destruct (routes_reject_foreign_ids ascii_lower ascii_quote_plus unconfigured
              (py "tv") (py "tt0111161") None) as (_ & H2 & H3).
  { right. reflexivity. }
  exact (conj H1 (conj H2 H3)).
Defined.

Lemma manifest_catalogs_are_served_witness :
  exists c,
    In c (man_catalogs (create_manifest ascii_capitalize (py "mf.example")
                          (py "secret")))
    /\ cat_id c = py "mediaflow-sports".
Proof.
  destruct (manifest_catalogs_are_served ascii_lower ascii_capitalize
              ascii_quote_plus (py "mf.example") (py "secret") unconfigured)
    as (_ & H & _).
  apply (H (py "sports")). apply list_in_In. reflexivity.
Defined.

Lemma catalog_ids_resolve_witness :
  List.length
    (fst (catalog ascii_lower ascii_quote_plus
            (snd (generate_channel_list ascii_lower all_writes_ok
                    (configured Missing Missing)))
            (py "tv") (py "mediaflow-general") None))
  = 2
  /\ Forall
       (fun m =>
          exists m',
            fst (meta_route ascii_quote_plus
                   (snd (catalog ascii_lower ascii_quote_plus
                           (snd (generate_channel_list ascii_lower all_writes_ok
                                   (configured Missing Missing)))
                           (py "tv") (py "mediaflow-general") None))
                   (py "tv") (m_id m))
            = Some m'
            /\ m_id m' = m_id m)
       (fst (catalog ascii_lower ascii_quote_plus
               (snd (generate_channel_list ascii_lower all_writes_ok
                       (configured Missing Missing)))
               (py "tv") (py "mediaflow-general") None)).
Proof.
  split; [vm_compute; reflexivity|].
  apply Forall_forall. intros m H.
  apply (catalog_ids_resolve ascii_lower ascii_quote_plus
           (snd (generate_channel_list ascii_lower all_writes_ok
                   (configured Missing Missing)))
           (py "mediaflow-general") None m).
  - intros cached C. vm_compute in C. discriminate C.
  - exact H.
Defined.

Lemma save_configuration_write_fails_witness :
  fst (save_configuration ascii_lower config_write_torn (py "other.example")
         (py "secret2") (configured Missing Missing))
  = HTTPException 500 (py "Errore nel salvataggio della configurazione")
  /\ load_config
       (fs (snd (save_configuration ascii_lower config_write_torn
                   (py "other.example") (py "secret2")
                   (configured Missing Missing))))
     = {| mediaflow_url := []; mediaflow_psw := [] |}.
Proof.
  destruct (save_configuration_write_fails ascii_lower config_write_torn
              (py "other.example") (py "secret2") (configured Missing Missing))
    as (H1 & _ & _ & _ & _ & _ & _ & H8).
  - discriminate.
  - discriminate.
  - discriminate.
  - exact (conj H1 (H8 eq_refl)).
Defined.

Lemma save_configuration_success_witness :
  fst (save_configuration ascii_lower snapshot_write_fails (py "mf.example")
         (py "secret") unconfigured)
  = Body true
  /\ load_config
       (fs (snd (save_configuration ascii_lower snapshot_write_fails
                   (py "mf.example") (py "secret") unconfigured)))
     = {| mediaflow_url := py "mf.example"; mediaflow_psw := py "secret" |}.
Proof.
  apply (save_configuration_success ascii_lower snapshot_write_fails
           (py "mf.example") (py "secret") unconfigured).
  - discriminate.
  - discriminate.
  - reflexivity.
Defined.

Lemma manifest_with_params_stale_cache_witness :
  fst (get_all_channels ascii_quote_plus
         (snd (manifest_with_params ascii_lower ascii_capitalize
                 snapshot_write_fails (py "other.example") (py "secret2")
                 (snd (get_all_channels ascii_quote_plus
                         (snd (generate_channel_list ascii_lower all_writes_ok
                                 (configured Missing Missing))))))))
  = fst (get_all_channels ascii_quote_plus
           (snd (generate_channel_list ascii_lower all_writes_ok
                   (configured Missing Missing)))).
Proof.
  apply (manifest_with_params_stale_cache ascii_lower ascii_capitalize
           ascii_quote_plus snapshot_write_fails (py "other.example")
           (py "secret2")).
  - vm_compute. reflexivity.
  - discriminate.
Defined.

Lemma normalize_channel_name_suffix_witness :
  normalize_channel_name ascii_lower (py " Sky Sport  .S")
  = ascii_lower (strip (py " Sky Sport ")).
Proof.
  apply (normalize_channel_name_suffix ascii_lower (py " Sky Sport ") 32%N 83%N);
    reflexivity.
Defined.

Lemma placeholder_url_no_space_witness :
  ~ In 32%N (placeholder_url (py "Canale 5 .s")).
Proof. apply (placeholder_url_no_space (py "Canale 5 .s")). Defined.

Lemma get_logo_url_sound_witness :
  (exists key,
      In (key, get_logo_url ascii_lower (py "Sky Sport .c") two_logos) two_logos
      /\ logo_key_matches ascii_lower
           (normalize_channel_name ascii_lower (py "Sky Sport .c")) key)
  \/ (get_logo_url ascii_lower (py "Sky Sport .c") two_logos
      = placeholder_url (py "Sky Sport .c")
      /\ forall key url, In (key, url) two_logos ->
           ~ logo_key_matches ascii_lower
               (normalize_channel_name ascii_lower (py "Sky Sport .c")) key).
Proof. apply (get_logo_url_sound ascii_lower (py "Sky Sport .c") two_logos). Defined.

Lemma get_logo_url_empty_key_witness :
  In (get_logo_url ascii_lower (py "Canale 5")
        [(py "rai 1", py "https://logos.example/rai1.png");
         (py " .c", py "https://logos.example/any.png")])
     (map snd [(py "rai 1", py "https://logos.example/rai1.png");
               (py " .c", py "https://logos.example/any.png")]).
Proof.
  apply (get_logo_url_empty_key ascii_lower (py "Canale 5") _ (py " .c")
           (py "https://logos.example/any.png")).
  - right. left. reflexivity.
  - reflexivity.
Defined.

Lemma generate_m3u_skips_excluded_witness :
  generate_m3u ascii_lower ascii_capitalize
    [ item_of (py "Rai 1 .c") (py "https://x/rai1");
      item_of (py "Sky Sport .s") (py "https://x/sky") ]
    (py "sig") [py "sky"; py "rai"] [py "SPORT"] sport_keywords two_logos
  = Some (m3u_header
          ++ m3u_entry ascii_lower ascii_capitalize
               (item_of (py "Rai 1 .c") (py "https://x/rai1"))
               [py "sky"; py "rai"] [py "SPORT"] sport_keywords two_logos).
Proof.
  destruct (generate_m3u_skips_excluded ascii_lower ascii_capitalize
              [item_of (py "Rai 1 .c") (py "https://x/rai1")] []
              (item_of (py "Sky Sport .s") (py "https://x/sky"))
              (py "sig") [py "sky"; py "rai"] [py "SPORT"] sport_keywords two_logos)
    as [_ H].
  - left. reflexivity.
  - simpl app in H. rewrite H. vm_compute. reflexivity.
Defined.

Lemma sanitize_tvg_id_words_witness :
  sanitize_tvg_id ascii_capitalize (py "  sky   SPORT.c") = py "Sky Sport".
Proof.
  destruct (sanitize_tvg_id_words ascii_capitalize (py "  sky   SPORT.c"))
    as [_ H].
  rewrite (H (py "  sky   SPORT") 99%N); reflexivity.
Defined.

Lemma m3u_entry_empty_iff_witness :
  m3u_entry ascii_lower ascii_capitalize
    {| item_name := Some (py "Rai 2"); item_url := Some [] |}
    [] [] sport_keywords two_logos
  = [].
Proof.
  apply (proj2 (m3u_entry_empty_iff ascii_lower ascii_capitalize
                  {| item_name := Some (py "Rai 2"); item_url := Some [] |}
                  [] [] sport_keywords two_logos)).
  right. right. reflexivity.
Defined.

Lemma routes_unknown_id_witness :
  fst (meta_route ascii_quote_plus
         (snd (generate_channel_list ascii_lower all_writes_ok
                 (configured Missing Missing)))
         (py "tv") (py "mediaflow-unknown"))
  = None
  /\ fst (stream_route ascii_quote_plus
            (snd (generate_channel_list ascii_lower all_writes_ok
                    (configured Missing Missing)))
            (py "tv") (py "mediaflow-unknown"))
     = [].
Proof.
  apply (routes_unknown_id ascii_quote_plus
           (snd (generate_channel_list ascii_lower all_writes_ok
                   (configured Missing Missing)))
           (py "tv") (py "mediaflow-unknown")).
  intros m H. vm_compute in H.
  repeat (destruct H as [<-|H]; [intros E; vm_compute in E; discriminate E|]).
  destruct H.
Defined.
